(** * Teacher dashboard backend: student records, dynamic columns,
      spreadsheet import and work items

    Shallow embedding of the two variants of the server in the
    repository, [src/server.js] and [src/unnamed/part_000], and of the
    part of the relational engine their SQL statements rely on.

    Conventions of the embedding.
    - Every handler is a function from the database state and the request
      to the new database state and the reply.  A statement that fails
      leaves the state as the previous statements of the same request left
      it: the handlers run without transactions.
    - The engine is modelled in its default configuration: strict SQL
      mode and a case-insensitive collation.  Text is ASCII, case is
      folded on the letters A-Z.  Column identifiers are case-insensitive.
    - The constraints of the tables are those of the CREATE TABLE
      statements in [createTables]: NOT NULL columns without default,
      the unique key on [student_id], the generated [id] and
      [created_at].
    - Values are assumed to fit the declared column types: length limits
      of VARCHAR columns and the syntax of DATE and INT literals are not
      modelled.  An id that a sheet gives explicitly is stored as text;
      the id counter does not follow it.
    - A sheet is given as the rows [XLSX.utils.sheet_to_json] returns,
      cells being texts or numbers. *)

From Stdlib Require Import Ascii String ZArith Bool.
From stdpp Require Import gmap strings list pretty.

Local Open Scope string_scope.
Local Open Scope list_scope.

(** ** Text: case folding, LIKE patterns, substrings *)

Module Text.

Definition lower (c : ascii) : ascii :=
  let n := nat_of_ascii c in
  if (65 <=? n)%nat && (n <=? 90)%nat then ascii_of_nat (n + 32) else c.

Fixpoint fold_case (s : string) : string :=
  match s with
  | EmptyString => EmptyString
  | String c s' => String (lower c) (fold_case s')
  end.

(** Equality of two characters, resp. two texts, under the collation. *)
Definition ceqb (a b : ascii) : bool := Ascii.eqb (lower a) (lower b).
Definition ci_eqb (s t : string) : bool := String.eqb (fold_case s) (fold_case t).

Definition is_percent (c : ascii) : bool := Ascii.eqb c "%".
Definition is_underscore (c : ascii) : bool := Ascii.eqb c "_".
Definition is_backslash (c : ascii) : bool := Ascii.eqb c "\".

(** [f] accepts the text from some position on. *)
Fixpoint some_suffix (f : string -> bool) (u : string) : bool :=
  f u || match u with EmptyString => false | String _ u' => some_suffix f u' end.

(** [like p t]: the SQL predicate [t LIKE p].  [%] matches any run of
    characters, [_] any one character, a backslash makes the next
    pattern character literal; everything else is compared under the
    collation. *)
Fixpoint like (p t : string) {struct p} : bool :=
  match p with
  | EmptyString => match t with EmptyString => true | _ => false end
  | String c p' =>
      if is_percent c then some_suffix (like p') t
      else if is_underscore c then
        match t with EmptyString => false | String _ t' => like p' t' end
      else if is_backslash c then
        match p' with
        | EmptyString =>
            match t with
            | String d EmptyString => ceqb c d
            | _ => false
            end
        | String e p'' =>
            match t with
            | EmptyString => false
            | String d t' => ceqb e d && like p'' t'
            end
        end
      else
        match t with
        | EmptyString => false
        | String d t' => ceqb c d && like p' t'
        end
  end.

(** Case-insensitive prefix and substring tests. *)
Fixpoint ci_prefix (v t : string) : bool :=
  match v with
  | EmptyString => true
  | String c v' =>
      match t with
      | EmptyString => false
      | String d t' => ceqb c d && ci_prefix v' t'
      end
  end.

Definition ci_contains (v t : string) : bool := some_suffix (ci_prefix v) t.

(** The declarative reading: [v] occurs in [t] up to case. *)
Definition ci_substring (v t : string) : Prop :=
  exists a m b, t = a +:+ m +:+ b /\ fold_case m = fold_case v.

(** A text free of the three characters LIKE reads specially. *)
Fixpoint plain (v : string) : bool :=
  match v with
  | EmptyString => true
  | String c v' =>
      negb (is_percent c) && negb (is_underscore c) &&
      negb (is_backslash c) && plain v'
  end.

Definition wrap (v : string) : string := "%" +:+ v +:+ "%".

End Text.


(** ** Values on the JavaScript side *)

(** A spreadsheet cell or a JSON field as the handlers see it. *)
Inductive jsval :=
| JUndefined
| JNull
| JStr (s : string)
| JNum (n : Z).

(** An object with its keys in insertion order ([Object.keys] order). *)
Definition jsobject := list (string * jsval).

Definition Object_keys (o : jsobject) : list string := o.*1.
Definition Object_values (o : jsobject) : list jsval := o.*2.

(** [o[k]]: the value of the first entry under [k], [undefined] without one. *)
Fixpoint js_get (o : jsobject) (k : string) : jsval :=
  match o with
  | [] => JUndefined
  | (k', v) :: o' => if String.eqb k' k then v else js_get o' k
  end.

(** [v !== undefined && v !== null && v !== ''] *)
Definition nonblank (v : jsval) : bool :=
  match v with
  | JUndefined | JNull => false
  | JStr s => negb (String.eqb s "")
  | JNum _ => true
  end.

(** What the driver sends for a bound parameter: [undefined] and [null]
    become NULL ([None]), a number its decimal text. *)
Definition sql_of_js (v : jsval) : option string :=
  match v with
  | JUndefined | JNull => None
  | JStr s => Some s
  | JNum n => Some (pretty n)
  end.

(** ** The relational engine *)

Module Sql.

Inductive error :=
| ER_BAD_FIELD_ERROR
| ER_FIELD_SPECIFIED_TWICE
| ER_NO_DEFAULT_FOR_FIELD
| ER_BAD_NULL_ERROR
| ER_DUP_ENTRY
| ER_DUP_FIELDNAME
| ER_WRONG_COLUMN_NAME
| ER_CANT_DROP_FIELD_OR_KEY
| ER_CANT_REMOVE_ALL_FIELDS
| WARN_DATA_TRUNCATED.

Inductive result (A : Type) :=
| Ok (a : A)
| Err (e : error).
Arguments Ok {A} a.
Arguments Err {A} e.

(** A line of [SHOW COLUMNS]: the declared name, whether NULL is
    allowed, whether the column carries a unique key, and how a value
    is found when the statement gives none. *)
Inductive default :=
| NoDefault
| DefaultNull
| AutoIncrement
| CurrentTimestamp.

Record column := {
  Field : string;
  Null : bool;
  Key : bool;
  Default : default
}.

(** A stored row maps the folded column name to its text; a column
    without entry is NULL. *)
Record table := {
  columns : list column;
  rows : list (gmap string string);
  next_id : Z;
  clock : string
}.

Definition key_of (c : string) : string := Text.fold_case c.

Definition names (c : string) (col : column) : bool :=
  Text.ci_eqb (Field col) c.

Definition has_column (t : table) (c : string) : bool :=
  existsb (names c) (columns t).

Definition is_auto (col : column) : bool :=
  match Default col with AutoIncrement => true | _ => false end.

Definition required (col : column) : bool :=
  negb (Null col) && match Default col with NoDefault => true | _ => false end.

(** The column list of a write: names with the value bound to each. *)
Definition assignment := list (string * option string).

Fixpoint supplied (a : assignment) (c : string) : option (option string) :=
  match a with
  | [] => None
  | (c', v) :: a' => if Text.ci_eqb c' c then Some v else supplied a' c
  end.

Definition unknown_field (t : table) (a : assignment) : bool :=
  existsb (fun e => negb (has_column t e.1)) a.

Fixpoint twice (a : assignment) : bool :=
  match a with
  | [] => false
  | (c, _) :: a' => existsb (fun e => Text.ci_eqb e.1 c) a' || twice a'
  end.

Definition no_default (t : table) (a : assignment) : bool :=
  existsb (fun col => required col &&
                      match supplied a (Field col) with None => true | Some _ => false end)
          (columns t).

Definition null_refused (col : column) : bool := negb (Null col) && negb (is_auto col).

Definition bad_null (t : table) (a : assignment) : bool :=
  existsb (fun col => null_refused col &&
                      match supplied a (Field col) with Some None => true | _ => false end)
          (columns t).

(** The value an INSERT stores in [col]. *)
Definition stored (t : table) (a : assignment) (col : column) : option string :=
  match supplied a (Field col) with
  | Some (Some v) => Some v
  | Some None => if is_auto col then Some (pretty (next_id t)) else None
  | None =>
      match Default col with
      | AutoIncrement => Some (pretty (next_id t))
      | CurrentTimestamp => Some (clock t)
      | _ => None
      end
  end.

Definition same_text (v : string) (o : option string) : bool :=
  match o with Some w => Text.ci_eqb v w | None => false end.

(** [r] already holds, in a unique column, a value the write brings.
    Generated ids are new by construction and never collide. *)
Definition collides (t : table) (a : assignment) (r : gmap string string) : bool :=
  existsb (fun col => Key col &&
                      match supplied a (Field col) with
                      | Some (Some v) => same_text v (r !! key_of (Field col))
                      | _ => false
                      end)
          (columns t).

Definition new_row (t : table) (a : assignment) : gmap string string :=
  foldr (fun col m => match stored t a col with
                      | Some v => <[key_of (Field col) := v]> m
                      | None => m
                      end) ∅ (columns t).

Definition precheck (t : table) (a : assignment) : option error :=
  if unknown_field t a then Some ER_BAD_FIELD_ERROR
  else if twice a then Some ER_FIELD_SPECIFIED_TWICE
  else if no_default t a then Some ER_NO_DEFAULT_FOR_FIELD
  else if bad_null t a then Some ER_BAD_NULL_ERROR
  else None.

(** [INSERT INTO t (columns of a) VALUES (values of a)] *)
Definition insert (t : table) (a : assignment) : result table :=
  match precheck t a with
  | Some e => Err e
  | None =>
      if existsb (collides t a) (rows t) then Err ER_DUP_ENTRY
      else Ok {| columns := columns t;
                 rows := rows t ++ [new_row t a];
                 next_id := next_id t + 1;
                 clock := clock t |}
  end.

(** [SET c1 = v1, c2 = v2, ...] applied to one row, left to right. *)
Definition assign (a : assignment) (r : gmap string string) : gmap string string :=
  foldl (fun m e => match e.2 with
                    | Some v => <[key_of e.1 := v]> m
                    | None => delete (key_of e.1) m
                    end) r a.

Definition nulls_refused (t : table) (a : assignment) : bool :=
  existsb (fun col => negb (Null col) &&
                      match supplied a (Field col) with Some None => true | _ => false end)
          (columns t).

(** A written unique column meets its value in a row that is not written. *)
Definition key_clash (t : table) (a : assignment) (others : list (gmap string string)) : bool :=
  existsb (collides t a) others.

Definition with_rows (t : table) (rs : list (gmap string string)) : table :=
  {| columns := columns t; rows := rs; next_id := next_id t; clock := clock t |}.

(** The write names a unique column with a value. *)
Definition writes_key (t : table) (a : assignment) : bool :=
  existsb (fun col => Key col &&
                      match supplied a (Field col) with
                      | Some (Some _) => true
                      | _ => false
                      end)
          (columns t).

(** [UPDATE t SET a WHERE c = v].  Values are checked against the
    constraints only when a row is written; a unique column cannot take
    a value that a row outside the WHERE clause holds, nor one value in
    several rows. *)
Definition update_where (t : table) (a : assignment) (c : string) (v : option string)
  : result table :=
  if unknown_field t a || negb (has_column t c) then Err ER_BAD_FIELD_ERROR
  else
    let hit r := match v with Some x => same_text x (r !! key_of c) | None => false end in
    let targets := List.filter hit (rows t) in
    let others := List.filter (fun r => negb (hit r)) (rows t) in
    match targets with
    | [] => Ok t
    | _ :: more =>
        if nulls_refused t a then Err ER_BAD_NULL_ERROR
        else if key_clash t a others then Err ER_DUP_ENTRY
        else if writes_key t a && negb (match more with [] => true | _ => false end)
        then Err ER_DUP_ENTRY
        else Ok (with_rows t (map (fun r => if hit r then assign a r else r) (rows t)))
    end.

Fixpoint update_first (p : gmap string string -> bool)
         (f : gmap string string -> gmap string string)
         (rs : list (gmap string string)) : list (gmap string string) :=
  match rs with
  | [] => []
  | r :: rs' => if p r then f r :: rs' else r :: update_first p f rs'
  end.

Fixpoint remove_first (p : gmap string string -> bool)
         (rs : list (gmap string string)) : list (gmap string string) :=
  match rs with
  | [] => []
  | r :: rs' => if p r then rs' else r :: remove_first p rs'
  end.

(** [INSERT INTO t (a) VALUES (...) ON DUPLICATE KEY UPDATE c = VALUES(c)]
    for every column [c] of [a]: the first row that holds one of the
    new unique values receives all the values of the statement. *)
Definition insert_or_update (t : table) (a : assignment) : result table :=
  match precheck t a with
  | Some e => Err e
  | None =>
      if existsb (collides t a) (rows t) then
        if nulls_refused t a then Err ER_BAD_NULL_ERROR
        else if key_clash t a (remove_first (collides t a) (rows t)) then Err ER_DUP_ENTRY
        else Ok (with_rows t (update_first (collides t a) (assign a) (rows t)))
      else Ok {| columns := columns t;
                 rows := rows t ++ [new_row t a];
                 next_id := next_id t + 1;
                 clock := clock t |}
  end.

(** Identifiers the driver's quoting and the engine accept for a new
    column: not empty, at most 64 characters, no dot (the driver reads
    a dot as a qualifier) and no blank at the end. *)
Fixpoint has_dot (c : string) : bool :=
  match c with
  | EmptyString => false
  | String x c' => Ascii.eqb x "." || has_dot c'
  end.

Fixpoint ends_blank (c : string) : bool :=
  match c with
  | EmptyString => false
  | String x EmptyString => Ascii.eqb x " "
  | String _ c' => ends_blank c'
  end.

Definition ident_ok (c : string) : bool :=
  negb (String.eqb c "") && (String.length c <=? 64)%nat &&
  negb (has_dot c) && negb (ends_blank c).

Definition varchar (c : string) : column :=
  {| Field := c; Null := true; Key := false; Default := DefaultNull |}.

Definition with_columns (t : table) (cs : list column) : table :=
  {| columns := cs; rows := rows t; next_id := next_id t; clock := clock t |}.

(** [ALTER TABLE t ADD COLUMN c VARCHAR(255)] *)
Definition add_column (t : table) (c : string) : result table :=
  if negb (ident_ok c) then Err ER_WRONG_COLUMN_NAME
  else if has_column t c then Err ER_DUP_FIELDNAME
  else Ok (with_columns t (columns t ++ [varchar c])).

(** [ALTER TABLE t ADD COLUMN IF NOT EXISTS c VARCHAR(255)] *)
Definition add_column_if_not_exists (t : table) (c : string) : result table :=
  if negb (ident_ok c) then Err ER_WRONG_COLUMN_NAME
  else if has_column t c then Ok t
  else Ok (with_columns t (columns t ++ [varchar c])).

(** [ALTER TABLE t DROP COLUMN c] *)
Definition drop_column (t : table) (c : string) : result table :=
  if negb (has_column t c) then Err ER_CANT_DROP_FIELD_OR_KEY
  else if (length (columns t) <=? 1)%nat then Err ER_CANT_REMOVE_ALL_FIELDS
  else Ok {| columns := List.filter (fun col => negb (names c col)) (columns t);
             rows := map (delete (key_of c)) (rows t);
             next_id := next_id t;
             clock := clock t |}.

(** [SHOW COLUMNS FROM t] and [SHOW COLUMNS FROM t LIKE p] *)
Definition show_columns (t : table) : list column := columns t.

Definition show_columns_like (t : table) (p : string) : list column :=
  List.filter (fun col => Text.like p (Field col)) (columns t).

(** [SELECT * FROM t WHERE 1=1 AND c1 LIKE p1 AND c2 LIKE p2 ...] *)
Definition holds (r : gmap string string) (cond : string * string) : bool :=
  match r !! key_of cond.1 with
  | Some txt => Text.like cond.2 txt
  | None => false
  end.

Definition select_like (t : table) (conds : list (string * string))
  : result (list (gmap string string)) :=
  if existsb (fun cond => negb (has_column t cond.1)) conds then Err ER_BAD_FIELD_ERROR
  else Ok (List.filter (fun r => forallb (holds r) conds) (rows t)).

End Sql.

(** The [table_columns] table: the registry of dynamic columns. *)
Module Registry.

Record entry := {
  column_name : string;
  data_type : string
}.

Definition fresh (c : string) : entry :=
  {| column_name := c; data_type := "VARCHAR(255)" |}.

(** [SELECT * FROM table_columns WHERE column_name = c] *)
Definition select_by_name (reg : list entry) (c : string) : list entry :=
  List.filter (fun e => Text.ci_eqb (column_name e) c) reg.

(** [INSERT INTO table_columns (column_name) VALUES (c)] *)
Definition insert (reg : list entry) (c : string) : Sql.result (list entry) :=
  match select_by_name reg c with
  | [] => Sql.Ok (reg ++ [fresh c])
  | _ => Sql.Err Sql.ER_DUP_ENTRY
  end.

(** [INSERT IGNORE INTO table_columns (column_name) VALUES (c)] *)
Definition insert_ignore (reg : list entry) (c : string) : list entry :=
  match select_by_name reg c with
  | [] => reg ++ [fresh c]
  | _ => reg
  end.

(** [DELETE FROM table_columns WHERE column_name = c] *)
Definition delete_by_name (reg : list entry) (c : string) : list entry :=
  List.filter (fun e => negb (Text.ci_eqb (column_name e) c)) reg.

End Registry.

(** The [work_status] table. *)
Module Work.

Record item := {
  id : Z;
  task : string;
  status : option string;
  start_date : option string;
  deadline : string;
  completed_date : option string
}.

Record table := {
  items : list item;
  next_id : Z
}.

Definition statuses : list string := ["pending"; "started"; "completed"].

(** The member of the ENUM a text denotes. *)
Definition enum (v : string) : option string :=
  List.find (Text.ci_eqb v) statuses.

(** [INSERT INTO work_status (task, status, start_date, deadline)
     VALUES (?, ?, ?, ?)]: the new table and the generated id. *)
Definition insert (t : table) (tk st sd dl : option string) : Sql.result (table * Z) :=
  match tk, dl with
  | None, _ | _, None => Sql.Err Sql.ER_BAD_NULL_ERROR
  | Some tk', Some dl' =>
      let add s :=
        Sql.Ok ({| items := items t ++
                      [{| id := next_id t; task := tk'; status := s;
                          start_date := sd; deadline := dl';
                          completed_date := None |}];
                   next_id := next_id t + 1 |}, next_id t) in
      match st with
      | None => add None
      | Some v =>
          match enum v with
          | Some m => add (Some m)
          | None => Sql.Err Sql.WARN_DATA_TRUNCATED
          end
      end
  end.

Definition set_status (s cd : option string) (w : item) : item :=
  {| id := id w; task := task w; status := s; start_date := start_date w;
     deadline := deadline w; completed_date := cd |}.

(** [UPDATE work_status SET status = ?, completed_date = ? WHERE id = ?] *)
Definition update (t : table) (st cd : option string) (n : Z) : Sql.result table :=
  if existsb (fun w => Z.eqb (id w) n) (items t) then
    let put s :=
      Sql.Ok {| items := map (fun w => if Z.eqb (id w) n then set_status s cd w else w)
                             (items t);
                next_id := next_id t |} in
    match st with
    | None => put None
    | Some v =>
        match enum v with
        | Some m => put (Some m)
        | None => Sql.Err Sql.WARN_DATA_TRUNCATED
        end
    end
  else Sql.Ok t.

End Work.

(** ** The database and the replies *)

Record database := {
  students : Sql.table;
  table_columns : list Registry.entry;
  work_status : Work.table
}.

Definition with_students (db : database) (t : Sql.table) : database :=
  {| students := t; table_columns := table_columns db; work_status := work_status db |}.

Definition with_table_columns (db : database) (reg : list Registry.entry) : database :=
  {| students := students db; table_columns := reg; work_status := work_status db |}.

Definition with_work_status (db : database) (w : Work.table) : database :=
  {| students := students db; table_columns := table_columns db; work_status := w |}.

(** [createTables]: the three tables as the CREATE TABLE statements
    declare them, empty. *)
Definition students_columns : list Sql.column :=
  [ {| Sql.Field := "id"; Sql.Null := false; Sql.Key := true; Sql.Default := Sql.AutoIncrement |};
    {| Sql.Field := "student_id"; Sql.Null := false; Sql.Key := true; Sql.Default := Sql.NoDefault |};
    {| Sql.Field := "name"; Sql.Null := false; Sql.Key := false; Sql.Default := Sql.NoDefault |};
    {| Sql.Field := "class"; Sql.Null := false; Sql.Key := false; Sql.Default := Sql.NoDefault |};
    {| Sql.Field := "section"; Sql.Null := false; Sql.Key := false; Sql.Default := Sql.NoDefault |};
    {| Sql.Field := "created_at"; Sql.Null := true; Sql.Key := false;
       Sql.Default := Sql.CurrentTimestamp |} ].

Definition createTables (now : string) : database :=
  {| students := {| Sql.columns := students_columns; Sql.rows := [];
                    Sql.next_id := 1; Sql.clock := now |};
     table_columns := [];
     work_status := {| Work.items := []; Work.next_id := 1 |} |}.

(** What a handler sends: [res.json(a)], or [res.status(code).json({error})]
    with a fixed message or with the message of a database error. *)
Inductive failure :=
| Message (m : string)
| Database (e : Sql.error).

Inductive reply (A : Type) :=
| Json (a : A)
| Status (code : nat) (f : failure).
Arguments Json {A} a.
Arguments Status {A} code f.

Definition baseColumns : list string := ["student_id"; "name"; "class"; "section"].

(** ** Routes that read the same in both variants *)

(** [GET /api/columns] *)
Definition get_columns (db : database) : list string :=
  let dynamicColumns := map Registry.column_name (table_columns db) in
  baseColumns ++ dynamicColumns.

(** [DELETE /api/columns/:columnName] *)
Definition delete_column (db : database) (columnName : string)
  : database * reply string :=
  if existsb (String.eqb columnName) baseColumns then
    (db, Status 400 (Message "Cannot delete base columns"))
  else
    let db1 := with_table_columns db (Registry.delete_by_name (table_columns db) columnName) in
    match Sql.drop_column (students db1) columnName with
    | Sql.Err e => (db1, Status 500 (Database e))
    | Sql.Ok t => (with_students db1 t, Json "Column deleted successfully")
    end.

(** [GET /api/students]: the query string as an object of texts. *)
Record found := {
  data : list (gmap string string);
  count : nat
}.

Definition truthy (v : string) : bool := negb (String.eqb v "").

Definition conditions (filters : list (string * string)) : list (string * string) :=
  map (fun f => (f.1, Text.wrap f.2)) (List.filter (fun f => truthy f.2) filters).

Definition get_students (db : database) (filters : list (string * string)) : reply found :=
  match Sql.select_like (students db) (conditions filters) with
  | Sql.Err e => Status 500 (Database e)
  | Sql.Ok rs => Json {| data := rs; count := length rs |}
  end.

(** [POST /api/work-status] *)
Record work_request := {
  req_task : jsval;
  req_status : jsval;
  req_startDate : jsval;
  req_deadline : jsval
}.

Definition post_work_status (db : database) (req : work_request)
  : database * reply (string * Z) :=
  match Work.insert (work_status db) (sql_of_js (req_task req)) (sql_of_js (req_status req))
                    (sql_of_js (req_startDate req)) (sql_of_js (req_deadline req)) with
  | Sql.Err e => (db, Status 500 (Database e))
  | Sql.Ok (w, insertId) => (with_work_status db w, Json ("Work status added", insertId))
  end.

(** [PUT /api/work-status/:id]; the path segment is read as the integer
    it denotes. *)
Definition put_work_status (db : database) (id : Z) (status completedDate : jsval)
  : database * reply string :=
  match Work.update (work_status db) (sql_of_js status) (sql_of_js completedDate) id with
  | Sql.Err e => (db, Status 500 (Database e))
  | Sql.Ok w => (with_work_status db w, Json "Work status updated")
  end.

(** The body of a successful upload; [recordsFailed] is [None] where
    the variant does not send the field. *)
Record uploaded := {
  recordsProcessed : nat;
  recordsFailed : option nat;
  newColumnsAdded : list string
}.

Definition bind_values (es : list (string * jsval)) : Sql.assignment :=
  map (fun e => (e.1, sql_of_js e.2)) es.

(** [excelColumns.filter(col => !existing.includes(col))] *)
Definition not_included (existing excelColumns : list string) : list string :=
  List.filter (fun col => negb (existsb (String.eqb col) existing)) excelColumns.

(** ** src/server.js *)

Module ServerJs.

(** [POST /api/columns] *)
Definition post_columns (db : database) (columnName : string)
  : database * reply (string * string) :=
  match Registry.select_by_name (table_columns db) columnName with
  | _ :: _ => (db, Status 400 (Message "Column already exists"))
  | [] =>
      match Sql.show_columns_like (students db) columnName with
      | _ :: _ => (db, Status 400 (Message "Column already exists in table"))
      | [] =>
          match Registry.insert (table_columns db) columnName with
          | Sql.Err e => (db, Status 500 (Database e))
          | Sql.Ok reg =>
              let db1 := with_table_columns db reg in
              match Sql.add_column (students db1) columnName with
              | Sql.Err e => (db1, Status 500 (Database e))
              | Sql.Ok t =>
                  (with_students db1 t, Json ("Column added successfully", columnName))
              end
          end
      end
  end.

(** One turn of [for (const col of newColumns)]: a failure is logged
    and the loop goes on. *)
Definition add_new_column (db : database) (col : string) : database :=
  let db1 := with_table_columns db (Registry.insert_ignore (table_columns db) col) in
  match Sql.show_columns_like (students db1) col with
  | [] =>
      match Sql.add_column (students db1) col with
      | Sql.Ok t => with_students db1 t
      | Sql.Err _ => db1
      end
  | _ :: _ => db1
  end.

(** The counters [insertedCount] and [errorCount] with the database. *)
Record progress := {
  db_of : database;
  insertedCount : nat;
  errorCount : nat
}.

(** [validEntries] and [updateColumns] of a row. *)
Definition validEntries (row : jsobject) : list (string * jsval) :=
  let columns := Object_keys row in
  let values := Object_values row in
  List.filter (fun e => nonblank e.2) (zip columns values).

Definition updateColumns (row : jsobject) : list string :=
  let columns := Object_keys row in
  List.filter (fun c => negb (String.eqb c "student_id") && nonblank (js_get row c)) columns.

(** The handler of a duplicate key: [if (err.code === 'ER_DUP_ENTRY')]. *)
Definition on_duplicate (st : progress) (row : jsobject) : progress :=
  let db := db_of st in
  match updateColumns row with
  | [] => st
  | _ :: _ =>
      match Sql.update_where (students db)
              (map (fun c => (c, sql_of_js (js_get row c))) (updateColumns row))
              "student_id" (sql_of_js (js_get row "student_id")) with
      | Sql.Ok t =>
          {| db_of := with_students db t;
             insertedCount := S (insertedCount st);
             errorCount := errorCount st |}
      | Sql.Err _ =>
          {| db_of := db;
             insertedCount := insertedCount st;
             errorCount := S (errorCount st) |}
      end
  end.

(** One turn of [for (const row of jsonData)]. *)
Definition upsert_row (st : progress) (row : jsobject) : progress :=
  let db := db_of st in
  match validEntries row with
  | [] => st
  | _ :: _ =>
      match Sql.insert (students db) (bind_values (validEntries row)) with
      | Sql.Ok t =>
          {| db_of := with_students db t;
             insertedCount := S (insertedCount st);
             errorCount := errorCount st |}
      | Sql.Err Sql.ER_DUP_ENTRY => on_duplicate st row
      | Sql.Err _ =>
          {| db_of := db;
             insertedCount := insertedCount st;
             errorCount := S (errorCount st) |}
      end
  end.

(** [POST /api/upload]; [file] is the parsed first sheet, [None]
    when the request carries no file. *)
Definition post_upload (db : database) (file : option (list jsobject))
  : database * reply uploaded :=
  match file with
  | None => (db, Status 400 (Message "No file uploaded"))
  | Some [] => (db, Status 400 (Message "Excel file is empty"))
  | Some ((first :: _) as jsonData) =>
      let existingTableColumns := map Sql.Field (Sql.show_columns (students db)) in
      let excelColumns := Object_keys first in
      let newColumns := not_included existingTableColumns excelColumns in
      let db1 := foldl add_new_column db newColumns in
      let st := foldl upsert_row
                      {| db_of := db1; insertedCount := 0; errorCount := 0 |} jsonData in
      (db_of st, Json {| recordsProcessed := insertedCount st;
                         recordsFailed := Some (errorCount st);
                         newColumnsAdded := newColumns |})
  end.

End ServerJs.

(** ** The second variant (src/unnamed/part_000) *)

Module Part000.

(** [POST /api/columns] *)
Definition post_columns (db : database) (columnName : string)
  : database * reply (string * string) :=
  match Registry.select_by_name (table_columns db) columnName with
  | _ :: _ => (db, Status 400 (Message "Column already exists"))
  | [] =>
      match Registry.insert (table_columns db) columnName with
      | Sql.Err e => (db, Status 500 (Database e))
      | Sql.Ok reg =>
          let db1 := with_table_columns db reg in
          match Sql.add_column (students db1) columnName with
          | Sql.Err e => (db1, Status 500 (Database e))
          | Sql.Ok t =>
              (with_students db1 t, Json ("Column added successfully", columnName))
          end
      end
  end.

(** [for (const col of newColumns)]: here a failure leaves the loop
    and the handler.  [ADD COLUMN IF NOT EXISTS] is read as the engines
    that have this form read it. *)
Fixpoint add_new_columns (db : database) (cols : list string)
  : database * option Sql.error :=
  match cols with
  | [] => (db, None)
  | col :: cols' =>
      let db1 := with_table_columns db (Registry.insert_ignore (table_columns db) col) in
      match Sql.add_column_if_not_exists (students db1) col with
      | Sql.Err e => (db1, Some e)
      | Sql.Ok t => add_new_columns (with_students db1 t) cols'
      end
  end.

(** One turn of [for (const row of jsonData)]. *)
Definition upsert_row (st : database * nat) (row : jsobject) : database * nat :=
  let columns := Object_keys row in
  let values := Object_values row in
  match Sql.insert_or_update (students st.1)
          (zip columns (map sql_of_js values)) with
  | Sql.Ok t => (with_students st.1 t, S st.2)
  | Sql.Err _ => st
  end.

(** [POST /api/upload] *)
Definition post_upload (db : database) (file : option (list jsobject))
  : database * reply uploaded :=
  match file with
  | None => (db, Status 400 (Message "No file uploaded"))
  | Some [] => (db, Status 400 (Message "Excel file is empty"))
  | Some ((first :: _) as jsonData) =>
      let existingColNames := map Registry.column_name (table_columns db) in
      let allExistingColumns := baseColumns ++ existingColNames in
      let excelColumns := Object_keys first in
      let newColumns := not_included allExistingColumns excelColumns in
      match add_new_columns db newColumns with
      | (db1, Some e) => (db1, Status 500 (Database e))
      | (db1, None) =>
          let st := foldl upsert_row (db1, 0%nat) jsonData in
          (st.1, Json {| recordsProcessed := st.2;
                         recordsFailed := None;
                         newColumnsAdded := newColumns |})
      end
  end.

End Part000.

(** ** The wording of the specification, for comparison *)

(** The filter as the specification reads it: every filter with a
    non-empty value occurs, up to case, in the text of the attribute it
    names; a record without a text under that attribute does not match. *)
Definition satisfies (filters : list (string * string)) (r : gmap string string) : bool :=
  forallb (fun f => negb (truthy f.2) ||
                    match r !! Sql.key_of f.1 with
                    | Some txt => Text.ci_contains f.2 txt
                    | None => false
                    end) filters.

(** A value that is missing from a request body. *)
Definition missing (v : jsval) : Prop := v = JUndefined \/ v = JNull.

(** A row whose values are all empty, null or undefined. *)
Definition blank_row (row : jsobject) : Prop :=
  Forall (fun e => nonblank e.2 = false) row.

(** The entries of a row that are written. *)
Definition valid_entries (row : jsobject) : list (string * jsval) :=
  List.filter (fun e => nonblank e.2) row.

(** A row that the students table with the columns [cols] takes whole:
    no attribute twice, also up to case; every non-blank value under a
    column of the table; a non-blank value for every column the table
    requires; of the unique columns only [student_id] written; and some
    value besides [student_id]. *)
Record importable (cols : list Sql.column) (row : jsobject) : Prop := {
  imp_object : NoDup (map Text.fold_case (Object_keys row));
  imp_known : forall k v, In (k, v) row -> nonblank v = true ->
                existsb (Sql.names k) cols = true;
  imp_required : forall col, In col cols -> Sql.required col = true ->
                   exists k v, In (k, v) row /\ nonblank v = true /\
                               Text.ci_eqb k (Sql.Field col) = true;
  imp_keys : forall k v col, In (k, v) row -> nonblank v = true ->
               In col cols -> Sql.names k col = true -> Sql.Key col = true ->
               k = "student_id";
  imp_more : exists k v, In (k, v) row /\ nonblank v = true /\ k <> "student_id"
}.

(** A row that the students table with the columns [cols] refuses: it
    has non-blank values, all under columns of the table and none of them
    twice, but none for a column that the table requires. *)
Record lacking (cols : list Sql.column) (row : jsobject) : Prop := {
  lack_object : NoDup (map Text.fold_case (Object_keys row));
  lack_some : exists k v, In (k, v) row /\ nonblank v = true;
  lack_known : forall k v, In (k, v) row -> nonblank v = true ->
                 existsb (Sql.names k) cols = true;
  lack_required : exists col, In col cols /\ Sql.required col = true /\
                    forall k v, In (k, v) row -> nonblank v = true ->
                                Text.ci_eqb k (Sql.Field col) = false
}.

(** A new header is apart from a name that it neither matches as a LIKE
    pattern nor equals up to case. *)
Definition apart (h c : string) : Prop :=
  Text.like h c = false /\ Text.ci_eqb c h = false.

(** New headers that the table takes as columns: acceptable identifiers,
    apart from every other name among the columns and the headers. *)
Definition addable (existing new : list string) : Prop :=
  Forall (fun h => Sql.ident_ok h = true) new /\
  forall h c, In h new -> In c (existing ++ new) -> c <> h -> apart h c.

(** What one write of [row] may do to a stored record: every attribute
    keeps its text, or receives the non-blank value the row has for it,
    and then it is not [student_id]. *)
Definition kept (row : jsobject) (r r' : gmap string string) : Prop :=
  forall k, r' !! k = r !! k \/
            (k <> Sql.key_of "student_id" /\
             exists c v, In (c, v) row /\ nonblank v = true /\
                         Sql.key_of c = k /\ r' !! k = sql_of_js v).

(** What a new record may hold: non-blank values of the row, and the
    values the engine fills in for the columns the row leaves out. *)
Definition written (t : Sql.table) (row : jsobject) (r' : gmap string string) : Prop :=
  forall k x, r' !! k = Some x ->
    (exists c v, In (c, v) row /\ nonblank v = true /\
                 Sql.key_of c = k /\ sql_of_js v = Some x)
    \/ (exists col, In col (Sql.columns t) /\ Sql.key_of (Sql.Field col) = k /\
                    match Sql.Default col with
                    | Sql.AutoIncrement => x = pretty (Sql.next_id t)
                    | Sql.CurrentTimestamp => x = Sql.clock t
                    | _ => False
                    end).

(** A row without an empty cell. *)
Definition filled (row : jsobject) : Prop :=
  Forall (fun e => nonblank e.2 = true) row.

(** The columns of the table after [ADD COLUMN IF NOT EXISTS] for each
    of the headers [hs]. *)
Definition extended (cols : list Sql.column) (hs : list string) : list Sql.column :=
  foldl (fun cs h => if existsb (Sql.names h) cs then cs else cs ++ [Sql.varchar h]) cols hs.

(** The record [r] holds the text [x], up to case, under [k]. *)
Definition carries (k x : string) (r : gmap string string) : bool :=
  Sql.same_text x (r !! k).

(** Two records hold the same text, up to case, under [k]. *)
Definition clash (k : string) (r r' : gmap string string) : Prop :=
  exists v v', r !! k = Some v /\ r' !! k = Some v' /\ Text.ci_eqb v v' = true.

Fixpoint distinct_on (k : string) (rs : list (gmap string string)) : Prop :=
  match rs with
  | [] => True
  | r :: rs' => (forall r', In r' rs' -> ~ clash k r r') /\ distinct_on k rs'
  end.

(** The students table keeps its unique key: there is a column
    [student_id], it is declared unique, and no two records hold the same
    student id. *)
Record keyed (t : Sql.table) : Prop := {
  keyed_column : Sql.has_column t "student_id" = true;
  keyed_unique : forall col, In col (Sql.columns t) ->
                   Sql.names "student_id" col = true -> Sql.Key col = true;
  keyed_rows : distinct_on (Sql.key_of "student_id") (Sql.rows t)
}.

(** A sheet that src/server.js imports whole: its new headers can be
    added, and every row is importable into the table so extended. *)
Record whole_sheet_serverjs (db : database) (rows : list jsobject) : Prop := {
  wsj_headers :
    addable (map Sql.Field (Sql.columns (students db)))
            (not_included (map Sql.Field (Sql.columns (students db)))
                          (Object_keys (hd [] rows)));
  wsj_rows :
    Forall (importable
              (Sql.columns (students db) ++
               map Sql.varchar
                   (not_included (map Sql.Field (Sql.columns (students db)))
                                 (Object_keys (hd [] rows)))))
           rows
}.

(** The headers the second variant takes for new. *)
Definition part000_new (db : database) (rows : list jsobject) : list string :=
  not_included (baseColumns ++ map Registry.column_name (table_columns db))
               (Object_keys (hd [] rows)).

(** A sheet that the second variant imports whole: its new headers are
    acceptable identifiers and differ, also up to case, from the
    registered names; every row is importable into the extended table,
    has no empty cell and names its student; and the table keeps its
    unique key. *)
Record whole_sheet_part000 (db : database) (rows : list jsobject) : Prop := {
  wsp_ident : Forall (fun h => Sql.ident_ok h = true) (part000_new db rows);
  wsp_registry : forall h e, In h (part000_new db rows) -> In e (table_columns db) ->
                   Text.ci_eqb (Registry.column_name e) h = false;
  wsp_rows : Forall (importable (extended (Sql.columns (students db)) (part000_new db rows)))
                    rows;
  wsp_filled : Forall filled rows;
  wsp_student : Forall (fun row => exists v, In ("student_id", v) row) rows;
  wsp_keyed : keyed (students db)
}.

(** ** Further routes and the start of the server *)

(** [GET /api/work-status]: [SELECT * FROM work_status ORDER BY deadline
    ASC].  Deadlines are dates in the form the engine stores them, so the
    order of the texts is the order of the dates; the engine leaves the
    order of rows with equal deadlines open. *)
Definition deadline_le (a b : Work.item) : Prop :=
  String.le (Work.deadline a) (Work.deadline b).

Fixpoint insert_by_deadline (w : Work.item) (l : list Work.item) : list Work.item :=
  match l with
  | [] => [w]
  | x :: l' =>
      if String.leb (Work.deadline w) (Work.deadline x) then w :: x :: l'
      else x :: insert_by_deadline w l'
  end.

Definition order_by_deadline (l : list Work.item) : list Work.item :=
  foldr insert_by_deadline [] l.

Definition get_work_status (db : database) : list Work.item :=
  order_by_deadline (Work.items (work_status db)).

(** [GET /api/debug/structure] of src/server.js: the column names, the
    number of records and the records of [LIMIT 5]. *)
Record structure := {
  debug_columns : list string;
  totalRecords : nat;
  sampleData : list (gmap string string)
}.

Definition get_debug_structure (db : database) : structure :=
  {| debug_columns := map Sql.Field (Sql.show_columns (students db));
     totalRecords := length (Sql.rows (students db));
     sampleData := take 5 (Sql.rows (students db)) |}.

(** [initDB] of src/server.js.  [connects k] tells whether the attempt
    number [k] (pool, test connection, [createTables]) goes through;
    [stored] is what the database holds when the server starts, [None]
    before the tables exist ([CREATE TABLE IF NOT EXISTS]). *)
Inductive started :=
| Connected (db : database)
| Exited (code : nat).

Record boot := {
  outcome : started;
  attempts : nat;
  waited : nat
}.

Definition ensure_tables (now : string) (stored : option database) : database :=
  match stored with
  | Some db => db
  | None => createTables now
  end.

Fixpoint initDB_from (connects : nat -> bool) (now : string) (stored : option database)
         (k : nat) (retries : nat) : boot :=
  if connects k then
    {| outcome := Connected (ensure_tables now stored); attempts := S k; waited := 5000 * k |}
  else
    match retries with
    | S retries' => initDB_from connects now stored (S k) retries'
    | O => {| outcome := Exited 1; attempts := S k; waited := 5000 * k |}
    end.

Definition initDB (connects : nat -> bool) (now : string) (stored : option database) : boot :=
  initDB_from connects now stored 0 5.

(** ** Further wording, for the properties of the routes *)

(** The ids of the work items are distinct and below the next id. *)
Definition work_ok (t : Work.table) : Prop :=
  NoDup (map Work.id (Work.items t)) /\
  Forall (fun w => (Work.id w < Work.next_id t)%Z) (Work.items t).

(** A list of work items in ascending order of deadline. *)
Fixpoint ascending (l : list Work.item) : Prop :=
  match l with
  | [] => True
  | x :: l' => Forall (deadline_le x) l' /\ ascending l'
  end.

(** The status the table stores for a bound value: NULL for NULL, the
    member of the ENUM for a text that denotes one. *)
Definition stored_status (st : option string) : option string :=
  match st with
  | None => None
  | Some v => Work.enum v
  end.

(** A bound status that the ENUM column takes. *)
Definition status_taken (st : option string) : Prop :=
  forall v, st = Some v -> Work.enum v <> None.

(** What an import of [sheet] may do to a stored record: every
    attribute keeps its text, or holds a non-blank value that a row of
    the sheet has for it, and then it is not [student_id]. *)
Definition kept_by (sheet : list jsobject) (r r' : gmap string string) : Prop :=
  forall k, r' !! k = r !! k \/
            (k <> Sql.key_of "student_id" /\
             exists row c v, In row sheet /\ In (c, v) row /\ nonblank v = true /\
                             Sql.key_of c = k /\ r' !! k = sql_of_js v).

(** The rows of a sheet are objects whose keys differ also up to case. *)
Definition headers_apart (sheet : list jsobject) : Prop :=
  Forall (fun row => NoDup (map Text.fold_case (Object_keys row))) sheet.

(** A text without backslash. *)
Fixpoint no_backslash (v : string) : bool :=
  match v with
  | EmptyString => true
  | String c v' => negb (Text.is_backslash c) && no_backslash v'
  end.

(** The filters with keys and values in lower case. *)
Definition fold_filters (filters : list (string * string)) : list (string * string) :=
  map (fun f => (Text.fold_case f.1, Text.fold_case f.2)) filters.

(** ** Sample data *)

Module Sample.

Definition db0 : database := createTables "2024-01-01 00:00:00".

Definition student (sid nm cl sec : string) : jsobject :=
  [("student_id", JStr sid); ("name", JStr nm); ("class", JStr cl); ("section", JStr sec)].

(** The empty database after the import of one student. *)
Definition db1 : database :=
  (ServerJs.post_upload db0 (Some [student "S1" "Alice" "10A" "B"])).1.

Definition alice : gmap string string :=
  list_to_map [("id", "1"); ("student_id", "S1"); ("name", "Alice"); ("class", "10A");
               ("section", "B"); ("created_at", "2024-01-01 00:00:00")].

(** A column [house] and a student who has a value in it. *)
Definition db2 : database :=
  (ServerJs.post_upload db0
     (Some [student "S1" "Alice" "10A" "B" ++ [("house", JStr "Red")]])).1.

Definition alice_red : gmap string string := <["house" := "Red"]> alice.

(** The same student again, the name changed and the house left empty. *)
Definition sheet_blank : list jsobject :=
  [student "S1" "Alice B" "10A" "B" ++ [("house", JStr "")]].

(** Ten rows, the fifth without [student_id]. *)
Definition sheet10 : list jsobject :=
  [ student "S1" "Ann" "10A" "A"; student "S2" "Ben" "10A" "A";
    student "S3" "Cem" "10A" "B"; student "S4" "Dov" "10A" "B";
    [("name", JStr "Eve"); ("class", JStr "10B"); ("section", JStr "A")];
    student "S6" "Fay" "10B" "A"; student "S7" "Gus" "10B" "B";
    student "S8" "Hal" "10B" "B"; student "S9" "Ida" "10C" "A";
    student "S10" "Jon" "10C" "A" ].

(** One student with a value in a column the table does not have yet. *)
Definition sheet_house : list jsobject :=
  [student "S1" "Alice" "10A" "B" ++ [("house", JStr "Red")]].

(** Two rows, the second with a value under a header that the first
    row, from which the new columns are taken, does not have. *)
Definition sheet_short : list jsobject :=
  [ student "S1" "Ann" "10A" "A";
    student "S2" "Bea" "10A" "A" ++ [("nickname", JStr "Bee")] ].

End Sample.

(** * Properties *)

(** Case analysis on the membership in a list that is written out. *)
Ltac each_in H :=
  repeat (destruct H as [H|H]; [try (injection H as <- <-); try subst|]); try destruct H.


(** ** LIKE against substring containment *)

Module TextFacts.
Import Text.

Lemma ceqb_spec a b : ceqb a b = true <-> lower a = lower b.
Proof. unfold ceqb. apply Ascii.eqb_eq. Qed.

Lemma ci_eqb_spec s t : ci_eqb s t = true <-> fold_case s = fold_case t.
Proof. unfold ci_eqb. apply String.eqb_eq. Qed.

Lemma ci_eqb_refl s : ci_eqb s s = true.
Proof. by apply ci_eqb_spec. Qed.

Lemma ci_eqb_sym s t : ci_eqb s t = ci_eqb t s.
Proof. unfold ci_eqb. apply String.eqb_sym. Qed.

Lemma ci_eqb_trans s t u : ci_eqb s t = true -> ci_eqb t u = true -> ci_eqb s u = true.
Proof. rewrite !ci_eqb_spec. congruence. Qed.

Lemma some_suffix_ext f g u :
  (forall w, f w = g w) -> some_suffix f u = some_suffix g u.
Proof.
  intros Hfg. induction u as [|c u IH]; simpl; rewrite Hfg; [done|].
  by rewrite IH.
Qed.

Lemma some_suffix_total u : some_suffix (like "") u = true.
Proof. induction u as [|c u IH]; simpl; [done|]. exact IH. Qed.

(** A pattern without special characters, closed by [%], is a prefix test. *)
Lemma like_plain_prefix v :
  plain v = true -> forall t, like (v +:+ "%") t = ci_prefix v t.
Proof.
  induction v as [|c v IH]; intros Hv t.
  - simpl. apply some_suffix_total.
  - simpl in Hv. apply andb_true_iff in Hv as [Hc Hv].
    apply andb_true_iff in Hc as [Hc Hb].
    apply andb_true_iff in Hc as [Hp Hu].
    apply negb_true_iff in Hp, Hu, Hb.
    simpl. rewrite Hp, Hu, Hb.
    destruct t as [|d t]; [done|]. by rewrite IH.
Qed.

(** Wrapped in [%], it is a substring test. *)
Lemma like_wrap v t : plain v = true -> like (wrap v) t = ci_contains v t.
Proof.
  intros Hv. unfold wrap, ci_contains. simpl.
  apply some_suffix_ext. by apply like_plain_prefix.
Qed.

Lemma ci_prefix_spec v t :
  ci_prefix v t = true <-> exists m b, t = m +:+ b /\ fold_case m = fold_case v.
Proof.
  revert t. induction v as [|c v IH]; intros t; simpl.
  - split; [|done]. intros _. by exists "", t.
  - destruct t as [|d t].
    + split; [done|]. intros (m & b & Ht & Hm).
      destruct m; simpl in *; discriminate.
    + rewrite andb_true_iff, ceqb_spec, IH. split.
      * intros [Hcd (m & b & -> & Hm)].
        exists (String d m), b. simpl. split; [done|]. congruence.
      * intros (m & b & Ht & Hm). destruct m as [|e m]; [discriminate|].
        simpl in Ht, Hm. injection Ht as -> ->. injection Hm as Hc Hm.
        split; [done|]. by exists m, b.
Qed.

Lemma ci_contains_spec v t : ci_contains v t = true <-> ci_substring v t.
Proof.
  unfold ci_contains, ci_substring. induction t as [|d t IH]; simpl.
  - rewrite orb_false_r, ci_prefix_spec. split.
    + intros (m & b & Ht & Hm). by exists "", m, b.
    + intros (a & m & b & Ht & Hm). destruct a; [|discriminate]. by exists m, b.
  - rewrite orb_true_iff, IH, ci_prefix_spec. split.
    + intros [(m & b & Ht & Hm) | (a & m & b & Ht & Hm)].
      * by exists "", m, b.
      * exists (String d a), m, b. simpl. by rewrite Ht.
    + intros (a & m & b & Ht & Hm). destruct a as [|e a].
      * left. by exists m, b.
      * right. simpl in Ht. injection Ht as -> ->. by exists a, m, b.
Qed.

End TextFacts.

(** ** Engine facts *)

Lemma with_work_status_same db : with_work_status db (work_status db) = db.
Proof. by destruct db. Qed.

Lemma with_students_same db : with_students db (students db) = db.
Proof. by destruct db. Qed.

Lemma filter_all {A} (f : A -> bool) (l : list A) :
  (forall x, In x l -> f x = true) -> List.filter f l = l.
Proof.
  induction l as [|x l IH]; intros H; simpl; [done|].
  rewrite H by (by left). f_equal. apply IH. intros y Hy. apply H. by right.
Qed.

Lemma filter_ext_in' {A} (f g : A -> bool) (l : list A) :
  (forall x, In x l -> f x = g x) -> List.filter f l = List.filter g l.
Proof.
  induction l as [|x l IH]; intros H; simpl; [done|].
  rewrite H by (by left). rewrite IH; [done|]. intros y Hy. apply H. by right.
Qed.

Lemma existsb_never {A} (f : A -> bool) (l : list A) :
  (forall x, f x = false) -> existsb f l = false.
Proof. intros H. induction l as [|x l IH]; simpl; [done|]. by rewrite H, IH. Qed.

Lemma sample_db1_rows : Sql.rows (students Sample.db1) = [Sample.alice].
Proof. vm_compute. reflexivity. Qed.

(** ** Student search *)

Lemma conditions_known db filters :
  (forall k v, In (k, v) filters -> v <> "" -> Sql.has_column (students db) k = true) ->
  existsb (fun cond => negb (Sql.has_column (students db) cond.1)) (conditions filters) = false.
Proof.
  intros H. unfold conditions. induction filters as [|[k v] fs IH]; simpl; [done|].
  unfold truthy at 1. simpl. destruct (String.eqb_spec v "") as [->|Hv]; simpl.
  - apply IH. intros k' v' Hin. apply H. by right.
  - rewrite (H k v); [|by left|done]. simpl.
    apply IH. intros k' v' Hin. apply H. by right.
Qed.

Lemma holds_wrap r k v :
  Text.plain v = true ->
  Sql.holds r (k, Text.wrap v) =
    match r !! Sql.key_of k with
    | Some txt => Text.ci_contains v txt
    | None => false
    end.
Proof.
  intros Hv. unfold Sql.holds. cbn [fst snd].
  destruct (r !! Sql.key_of k); [|done]. by apply TextFacts.like_wrap.
Qed.

Lemma truthy_spec v : truthy v = true <-> v <> "".
Proof.
  unfold truthy. destruct (String.eqb_spec v ""); simpl; split; congruence.
Qed.

Lemma conditions_hold filters r :
  (forall k v, In (k, v) filters -> v <> "" -> Text.plain v = true) ->
  forallb (Sql.holds r) (conditions filters) = satisfies filters r.
Proof.
  intros H. unfold conditions, satisfies.
  induction filters as [|[k v] fs IH]; [done|].
  cbn [List.filter forallb fst snd].
  rewrite <- IH by (intros k' v' Hin; apply (H k' v'); by right).
  destruct (truthy v) eqn:Ht; cbn [map forallb fst snd negb orb]; [|done].
  rewrite holds_wrap; [done|]. apply (H k v); [by left|by apply truthy_spec].
Qed.

(** [satisfies] says what the specification says. *)
Lemma satisfies_spec filters r :
  satisfies filters r = true <->
  forall k v, In (k, v) filters -> v <> "" ->
    exists txt, r !! Sql.key_of k = Some txt /\ Text.ci_substring v txt.
Proof.
  unfold satisfies. rewrite forallb_forall. split.
  - intros H k v Hin Hv. specialize (H (k, v) Hin). simpl in H.
    unfold truthy in H. destruct (String.eqb_spec v ""); [done|]. simpl in H.
    destruct (r !! Sql.key_of k) as [txt|]; [|done].
    exists txt. split; [done|]. by apply TextFacts.ci_contains_spec.
  - intros H [k v] Hin. simpl. unfold truthy.
    destruct (String.eqb_spec v "") as [->|Hv]; [done|]. simpl.
    destruct (H k v Hin Hv) as (txt & -> & Hs). by apply TextFacts.ci_contains_spec.
Qed.

(** C4, as amended: when every filter with a non-empty value names a
    column of the students table and its value has none of the characters
    [%], [_] and backslash, the search returns exactly the records in
    which each such value occurs, up to case, in the text of the named
    attribute; without filters it returns every record. *)
Theorem find_plain_filters (db : database) (filters : list (string * string)) :
  (forall k v, In (k, v) filters -> v <> "" ->
     Sql.has_column (students db) k = true /\ Text.plain v = true) ->
  get_students db filters =
    Json {| data := List.filter (satisfies filters) (Sql.rows (students db));
            count := length (List.filter (satisfies filters) (Sql.rows (students db))) |}
  /\ (forall r, In r (List.filter (satisfies filters) (Sql.rows (students db))) <->
                In r (Sql.rows (students db)) /\
                forall k v, In (k, v) filters -> v <> "" ->
                  exists txt, r !! Sql.key_of k = Some txt /\ Text.ci_substring v txt)
  /\ get_students db [] =
       Json {| data := Sql.rows (students db); count := length (Sql.rows (students db)) |}.
Proof.
  intros H. split; [|split].
  - unfold get_students, Sql.select_like.
    rewrite conditions_known by (intros k v Hin Hv; by destruct (H k v Hin Hv)).
    rewrite (filter_ext_in' _ (satisfies filters)); [done|].
    intros r _. apply conditions_hold. intros k v Hin Hv. by destruct (H k v Hin Hv).
  - intros r. by rewrite filter_In, satisfies_spec.
  - unfold get_students, Sql.select_like. cbn [conditions List.filter map existsb forallb].
    by rewrite filter_all.
Qed.

Lemma find_plain_filters_witness :
  get_students Sample.db1 [("class", "10a"); ("name", "")] =
    Json {| data := [Sample.alice]; count := 1 |}.
Proof.
  destruct (find_plain_filters Sample.db1 [("class", "10a"); ("name", "")]) as (H & _ & _).
  - intros k v [Hin|[Hin|[]]] Hv; inversion Hin; subst; [by vm_compute|done].
  - rewrite H. rewrite sample_db1_rows. reflexivity.
Defined.

(** C4, as stated, fails: the filter [class = 1_A] finds the record whose
    class is [10A], in which [1_A] does not occur. *)
Lemma find_underscore_counterexample :
  get_students Sample.db1 [("class", "1_A")] = Json {| data := [Sample.alice]; count := 1 |}
  /\ Sample.alice !! "class" = Some "10A"
  /\ ~ Text.ci_substring "1_A" "10A".
Proof.
  split; [by vm_compute|]. split; [by vm_compute|].
  rewrite <- TextFacts.ci_contains_spec. by vm_compute.
Qed.




(** ** Dynamic columns *)

(** C3: whatever the database holds, deleting one of the four fixed
    columns is refused with status 400 and changes nothing. *)
Theorem delete_base_column_refused (db : database) (name : string) :
  In name baseColumns ->
  delete_column db name = (db, Status 400 (Message "Cannot delete base columns")).
Proof.
  intros Hin. unfold delete_column.
  replace (existsb (String.eqb name) baseColumns) with true; [done|].
  symmetry. apply existsb_exists. exists name. split; [done|]. apply String.eqb_refl.
Qed.

Lemma delete_base_column_refused_witness :
  delete_column Sample.db1 "student_id" =
    (Sample.db1, Status 400 (Message "Cannot delete base columns")).
Proof.
  apply (delete_base_column_refused Sample.db1 "student_id"). by left.
Defined.

(** ** Work items *)

(** C9: an update under an id that no stored work item carries answers
    [Work status updated] and leaves the database as it was. *)
Theorem put_unknown_work_item (db : database) (id : Z) (status completedDate : jsval) :
  (forall w, In w (Work.items (work_status db)) -> Work.id w <> id) ->
  put_work_status db id status completedDate = (db, Json "Work status updated").
Proof.
  intros Hid. unfold put_work_status, Work.update.
  replace (existsb _ (Work.items (work_status db))) with false.
  - by rewrite with_work_status_same.
  - symmetry. apply not_true_is_false. intros (w & Hw & Heq)%existsb_exists.
    apply Z.eqb_eq in Heq. by apply (Hid w).
Qed.

Lemma put_unknown_work_item_witness :
  put_work_status Sample.db1 7 (JStr "completed") JUndefined =
    (Sample.db1, Json "Work status updated").
Proof.
  apply (put_unknown_work_item Sample.db1 7). intros w Hw. vm_compute in Hw. destruct Hw.
Defined.

(** C8, as amended: creating a work item without task or without
    deadline (undefined or null) fails on the NOT NULL constraint of the
    table; the reply carries status 500 and the engine's error, and
    nothing is stored. *)
Theorem post_work_status_missing (db : database) (req : work_request) :
  missing (req_task req) \/ missing (req_deadline req) ->
  post_work_status db req = (db, Status 500 (Database Sql.ER_BAD_NULL_ERROR)).
Proof.
  unfold post_work_status, Work.insert.
  intros [[-> | ->] | [-> | ->]]; simpl; try done;
    by destruct (sql_of_js (req_task req)).
Qed.

Lemma post_work_status_missing_witness :
  post_work_status Sample.db1
    {| req_task := JUndefined; req_status := JStr "pending";
       req_startDate := JNull; req_deadline := JStr "2024-01-05" |} =
  (Sample.db1, Status 500 (Database Sql.ER_BAD_NULL_ERROR)).
Proof.
  apply post_work_status_missing. left. by left.
Defined.

(** C8, as stated, fails: without a task the reply has status 500, not
    the 400 of a validation error; and a request without status stores
    the item with no status (NULL), not with [pending]. *)
Lemma post_work_status_counterexample :
  (post_work_status Sample.db0
     {| req_task := JUndefined; req_status := JStr "pending";
        req_startDate := JUndefined; req_deadline := JStr "2024-01-05" |}).2 =
    Status 500 (Database Sql.ER_BAD_NULL_ERROR)
  /\ map Work.status
       (Work.items (work_status
          (post_work_status Sample.db0
             {| req_task := JStr "Grade papers"; req_status := JUndefined;
                req_startDate := JUndefined; req_deadline := JStr "2024-01-05" |}).1)) =
     [None].
Proof. split; by vm_compute. Qed.

(** ** Import: the row loop of src/server.js *)

Lemma entries_of_row (row : jsobject) : zip (Object_keys row) (Object_values row) = row.
Proof. apply zip_fst_snd. Qed.

Lemma no_valid_entries (row : jsobject) :
  blank_row row -> List.filter (fun e => nonblank e.2) row = [].
Proof.
  induction 1 as [|e row He _ IH]; simpl; [done|]. by rewrite He.
Qed.

Lemma validEntries_eq row : ServerJs.validEntries row = valid_entries row.
Proof. unfold ServerJs.validEntries. by rewrite entries_of_row. Qed.

Lemma upsert_row_blank st row : blank_row row -> ServerJs.upsert_row st row = st.
Proof.
  intros Hb. unfold ServerJs.upsert_row.
  rewrite validEntries_eq. unfold valid_entries. by rewrite (no_valid_entries row Hb).
Qed.

(** Every turn of the loop moves at most one of the two counters, by one. *)
Lemma upsert_row_counts st row :
  ServerJs.insertedCount (ServerJs.upsert_row st row) +
  ServerJs.errorCount (ServerJs.upsert_row st row)
  <= S (ServerJs.insertedCount st + ServerJs.errorCount st).
Proof.
  unfold ServerJs.upsert_row, ServerJs.on_duplicate.
  repeat (case_match; simpl; try lia).
Qed.

Lemma upsert_rows_counts rows st :
  ServerJs.insertedCount (foldl ServerJs.upsert_row st rows) +
  ServerJs.errorCount (foldl ServerJs.upsert_row st rows)
  <= ServerJs.insertedCount st + ServerJs.errorCount st + length rows.
Proof.
  revert st. induction rows as [|row rows IH]; intros st; simpl; [lia|].
  specialize (IH (ServerJs.upsert_row st row)).
  pose proof (upsert_row_counts st row). lia.
Qed.

Lemma upsert_rows_blank rows row st :
  In row rows -> blank_row row ->
  ServerJs.insertedCount (foldl ServerJs.upsert_row st rows) +
  ServerJs.errorCount (foldl ServerJs.upsert_row st rows)
  < ServerJs.insertedCount st + ServerJs.errorCount st + length rows.
Proof.
  intros (before & after & ->)%in_split Hb.
  rewrite foldl_app. cbn [foldl]. rewrite upsert_row_blank by done.
  pose proof (upsert_rows_counts after (foldl ServerJs.upsert_row st before)).
  pose proof (upsert_rows_counts before st).
  rewrite length_app. cbn [length]. lia.
Qed.

(** C10: in src/server.js a row whose values are all empty, null or
    undefined leaves the counters and the database as they are; an
    import whose sheet holds such a row reports processed and failed
    counts that add up to less than the number of rows. *)
Theorem blank_row_skipped (row : jsobject) :
  blank_row row ->
  (forall st, ServerJs.upsert_row st row = st)
  /\ (forall db rows db' res,
        In row rows ->
        ServerJs.post_upload db (Some rows) = (db', Json res) ->
        exists failed,
          recordsFailed res = Some failed /\
          recordsProcessed res + failed < length rows).
Proof.
  intros Hb. split; [intros st; by apply upsert_row_blank|].
  intros db rows db' res Hin Hup.
  destruct rows as [|first rest]; [done|].
  unfold ServerJs.post_upload in Hup.
  injection Hup as _ <-. eexists. split; [done|]. cbn [recordsProcessed].
  by apply (upsert_rows_blank (first :: rest) row).
Qed.

Lemma blank_row_skipped_witness :
  exists failed,
    recordsFailed
      {| recordsProcessed := 1; recordsFailed := Some 0; newColumnsAdded := [] |} = Some failed
    /\ 1 + failed < 2.
Proof.
  pose (row := [("student_id", JStr ""); ("name", JNull)] : jsobject).
  assert (Hb : blank_row row) by (repeat constructor).
  destruct (blank_row_skipped row Hb) as [_ H].
  apply (H Sample.db0 [Sample.student "S1" "Alice" "10A" "B"; row]
           (ServerJs.post_upload Sample.db0
              (Some [Sample.student "S1" "Alice" "10A" "B"; row])).1).
  - right. by left.
  - by vm_compute.
Defined.

(** ** Adding a column *)

Lemma not_selected reg c e :
  Registry.select_by_name reg c = [] -> In e reg ->
  Text.ci_eqb (Registry.column_name e) c = false.
Proof.
  unfold Registry.select_by_name. intros Hsel Hin.
  destruct (Text.ci_eqb (Registry.column_name e) c) eqn:He; [|done].
  assert (In e (List.filter (fun e => Text.ci_eqb (Registry.column_name e) c) reg))
    by (apply filter_In; by split).
  rewrite Hsel in H. destruct H.
Qed.

Lemma not_registered_name reg c :
  Registry.select_by_name reg c = [] -> ~ In c (map Registry.column_name reg).
Proof.
  intros Hsel (e & <- & Hin)%in_map_iff.
  pose proof (not_selected _ _ _ Hsel Hin) as H.
  by rewrite TextFacts.ci_eqb_refl in H.
Qed.

Lemma selected_after_insert reg c :
  Registry.select_by_name (reg ++ [Registry.fresh c]) c <> [].
Proof.
  unfold Registry.select_by_name. intros H.
  assert (In (Registry.fresh c)
             (List.filter (fun e => Text.ci_eqb (Registry.column_name e) c)
                          (reg ++ [Registry.fresh c]))) as Hin.
  { apply filter_In. split; [apply in_app_iff; right; by left|].
    apply TextFacts.ci_eqb_refl. }
  rewrite H in Hin. destruct Hin.
Qed.

Lemma has_column_base db name :
  Forall (fun c => Sql.has_column (students db) c = true) baseColumns ->
  Sql.has_column (students db) name = false -> ~ In name baseColumns.
Proof.
  intros Hbase Hname Hin. rewrite Forall_forall in Hbase.
  apply list_elem_of_In, Hbase in Hin. congruence.
Qed.

(** The second variant adds a column for every acceptable identifier
    that is neither registered nor a column of the students table: the
    name is listed once, after the names listed before, and a second
    request is refused with status 400 and changes nothing. *)
Lemma part000_post_columns_fresh (db : database) (name : string) :
  Forall (fun c => Sql.has_column (students db) c = true) baseColumns ->
  Sql.ident_ok name = true ->
  Registry.select_by_name (table_columns db) name = [] ->
  Sql.has_column (students db) name = false ->
  exists db',
    Part000.post_columns db name = (db', Json ("Column added successfully", name))
    /\ get_columns db' = get_columns db ++ [name]
    /\ ~ In name (get_columns db)
    /\ Part000.post_columns db' name = (db', Status 400 (Message "Column already exists")).
Proof.
  intros Hbase Hid Hreg Hlive. unfold Part000.post_columns at 1.
  rewrite Hreg. unfold Registry.insert. rewrite Hreg.
  unfold Sql.add_column. cbn [students with_table_columns]. rewrite Hid, Hlive.
  cbn [negb]. eexists. split; [done|]. split; [|split].
  - unfold get_columns. cbn [table_columns with_students with_table_columns].
    by rewrite map_app, app_assoc.
  - unfold get_columns. rewrite in_app_iff. intros [Hin|Hin].
    + by apply (has_column_base db name).
    + by apply (not_registered_name _ _ Hreg).
  - unfold Part000.post_columns. cbn [table_columns with_students with_table_columns].
    pose proof (selected_after_insert (table_columns db) name) as Hsel.
    revert Hsel.
    by destruct (Registry.select_by_name (table_columns db ++ [Registry.fresh name]) name).
Qed.

(** So does src/server.js, as long as the name, read as a LIKE pattern,
    matches no column of the students table. *)
Lemma serverjs_post_columns_fresh (db : database) (name : string) :
  Forall (fun c => Sql.has_column (students db) c = true) baseColumns ->
  Sql.ident_ok name = true ->
  Registry.select_by_name (table_columns db) name = [] ->
  Sql.has_column (students db) name = false ->
  Sql.show_columns_like (students db) name = [] ->
  exists db',
    ServerJs.post_columns db name = (db', Json ("Column added successfully", name))
    /\ get_columns db' = get_columns db ++ [name]
    /\ ~ In name (get_columns db)
    /\ ServerJs.post_columns db' name = (db', Status 400 (Message "Column already exists")).
Proof.
  intros Hbase Hid Hreg Hlive Hlike. unfold ServerJs.post_columns at 1.
  rewrite Hreg, Hlike. unfold Registry.insert. rewrite Hreg.
  unfold Sql.add_column. cbn [students with_table_columns]. rewrite Hid, Hlive.
  cbn [negb]. eexists. split; [done|]. split; [|split].
  - unfold get_columns. cbn [table_columns with_students with_table_columns].
    by rewrite map_app, app_assoc.
  - unfold get_columns. rewrite in_app_iff. intros [Hin|Hin].
    + by apply (has_column_base db name).
    + by apply (not_registered_name _ _ Hreg).
  - unfold ServerJs.post_columns. cbn [table_columns with_students with_table_columns].
    pose proof (selected_after_insert (table_columns db) name) as Hsel.
    revert Hsel.
    by destruct (Registry.select_by_name (table_columns db ++ [Registry.fresh name]) name).
Qed.

(** C2 fails in src/server.js: [nam_] is an acceptable identifier, is not
    registered and is no column of the students table, yet the request
    is refused with [Column already exists in table], because
    [SHOW COLUMNS ... LIKE 'nam_'] finds the column [name].  The second
    variant, which does not ask the table, adds the column. *)
Theorem serverjs_post_columns_pattern :
  Sql.ident_ok "nam_" = true
  /\ Registry.select_by_name (table_columns Sample.db0) "nam_" = []
  /\ Sql.has_column (students Sample.db0) "nam_" = false
  /\ ServerJs.post_columns Sample.db0 "nam_" =
       (Sample.db0, Status 400 (Message "Column already exists in table"))
  /\ (Part000.post_columns Sample.db0 "nam_").2 = Json ("Column added successfully", "nam_").
Proof. repeat split; by vm_compute. Qed.

(** ** Import: what the two variants do on the same sheets *)

(** C1 fails in the second variant: the student S1 has the house [Red];
    a sheet that names S1 again with an empty house makes
    [ON DUPLICATE KEY UPDATE] store the empty text over [Red].
    src/server.js, which leaves blank values out of its statements,
    keeps [Red] and only changes the name. *)
Theorem part000_overwrites_with_blank :
  Sql.rows (students Sample.db2) = [Sample.alice_red]
  /\ Sql.rows (students (Part000.post_upload Sample.db2 (Some Sample.sheet_blank)).1) =
       [<["house" := ""]> (<["name" := "Alice B"]> Sample.alice_red)]
  /\ Sql.rows (students (ServerJs.post_upload Sample.db2 (Some Sample.sheet_blank)).1) =
       [<["name" := "Alice B"]> Sample.alice_red].
Proof. repeat split; vm_compute; reflexivity. Qed.

(** C5 fails in the second variant: of ten rows, the fifth without
    [student_id], nine are processed and the request succeeds, but the
    reply has no count of failed rows.  src/server.js reports one. *)
Theorem part000_no_failed_tally :
  (Part000.post_upload Sample.db0 (Some Sample.sheet10)).2 =
    Json {| recordsProcessed := 9; recordsFailed := None; newColumnsAdded := [] |}
  /\ (ServerJs.post_upload Sample.db0 (Some Sample.sheet10)).2 =
       Json {| recordsProcessed := 9; recordsFailed := Some 1; newColumnsAdded := [] |}.
Proof. split; by vm_compute. Qed.

(** ** Statements and their column lists *)

Lemma supplied_in a c v :
  Sql.supplied a c = Some v -> exists k, In (k, v) a /\ Text.ci_eqb k c = true.
Proof.
  induction a as [|[k w] a IH]; simpl; [done|].
  destruct (Text.ci_eqb k c) eqn:Hk.
  - intros [= <-]. exists k. split; [by left|done].
  - intros (k' & Hin & Hk')%IH. exists k'. split; [by right|done].
Qed.

Lemma supplied_none a c k v :
  Sql.supplied a c = None -> In (k, v) a -> Text.ci_eqb k c = false.
Proof.
  induction a as [|[k' w] a IH]; simpl; [done|].
  destruct (Text.ci_eqb k' c) eqn:Hk; [done|].
  intros Hs [[= -> ->]|Hin]; [done|by apply IH].
Qed.

Lemma nonblank_bound v : nonblank v = true -> exists x, sql_of_js v = Some x.
Proof. destruct v; simpl; try done; eauto. Qed.

Lemma valid_entries_in row k v :
  In (k, v) (valid_entries row) <-> In (k, v) row /\ nonblank v = true.
Proof. unfold valid_entries. by rewrite filter_In. Qed.

Lemma bind_values_in es k o :
  In (k, o) (bind_values es) <-> exists v, In (k, v) es /\ o = sql_of_js v.
Proof.
  unfold bind_values. rewrite in_map_iff. split.
  - intros ([k' v] & [= -> <-] & Hin). by exists v.
  - intros (v & Hin & ->). by exists (k, v).
Qed.

Lemma bind_values_keys es : (bind_values es).*1 = es.*1.
Proof. unfold bind_values. induction es as [|[k v] es IH]; simpl; [done|]. by f_equal. Qed.

Lemma in_keys {V} (l : list (string * V)) k : In k l.*1 <-> exists v, In (k, v) l.
Proof.
  induction l as [|[k' v'] l IH]; simpl.
  - split; [done|by intros [v []]].
  - rewrite IH. split.
    + intros [->|[v Hv]]; [exists v'; by left|exists v; by right].
    + intros [v [[= -> ->]|Hv]]; [by left|right; by exists v].
Qed.

Lemma valid_entries_nodup (f : string -> string) row :
  NoDup (map f (Object_keys row)) -> NoDup (map f (valid_entries row).*1).
Proof.
  unfold Object_keys, valid_entries.
  induction row as [|[k v] row IH]; simpl; [done|].
  intros Hnd. inversion Hnd as [|x l Hk Hrow]; subst.
  destruct (nonblank v); simpl; [|by apply IH].
  constructor; [|by apply IH].
  intros (k' & Hf & [v' Hin%filter_In]%in_keys)%list_elem_of_In%in_map_iff.
  apply Hk, list_elem_of_In. rewrite <- Hf. apply in_map, in_keys. exists v'. by destruct Hin.
Qed.

Lemma twice_false a : NoDup (map Text.fold_case a.*1) -> Sql.twice a = false.
Proof.
  induction a as [|[c v] a IH]; simpl; [done|].
  intros Hnd. inversion Hnd as [|x l Hc Ha]; subst.
  rewrite IH by done. rewrite orb_false_r.
  apply not_true_is_false. intros ([k w] & Hin & Hk)%existsb_exists.
  apply Hc, list_elem_of_In. simpl in Hk. apply TextFacts.ci_eqb_spec in Hk. rewrite <- Hk.
  apply in_map, in_keys. by exists w.
Qed.

Lemma js_get_in row c : nonblank (js_get row c) = true -> In (c, js_get row c) row.
Proof.
  induction row as [|[k v] row IH]; simpl; [done|].
  destruct (String.eqb_spec k c) as [->|Hk]; [by left|]. intros H. right. by apply IH.
Qed.

Lemma js_get_nodup row k v : NoDup (Object_keys row) -> In (k, v) row -> js_get row k = v.
Proof.
  unfold Object_keys. induction row as [|[k' v'] row IH]; simpl; [done|].
  intros Hnd Hin. inversion Hnd as [|x l Hk Hrow]; subst.
  destruct Hin as [[= -> ->]|Hin]; [by rewrite String.eqb_refl|].
  destruct (String.eqb_spec k' k) as [->|Hne]; [|by apply IH].
  destruct Hk. apply list_elem_of_In, in_keys. by exists v.
Qed.

Lemma nodup_unfolded (l : list string) : NoDup (map Text.fold_case l) -> NoDup l.
Proof.
  induction l as [|x l IH]; simpl; [done|].
  intros Hnd. inversion Hnd as [|y l' Hx Hl]; subst.
  constructor; [|by apply IH].
  intros Hin%list_elem_of_In. apply Hx, list_elem_of_In. by apply in_map.
Qed.

Lemma importable_nodup cols row : importable cols row -> NoDup (Object_keys row).
Proof. intros H. apply nodup_unfolded, (imp_object _ _ H). Qed.

(** The only unique column an importable row writes is [student_id]. *)
Lemma key_written t row a col x :
  importable (Sql.columns t) row ->
  (forall k o, In (k, o) a -> exists v, In (k, v) row /\ nonblank v = true) ->
  In col (Sql.columns t) -> Sql.Key col = true ->
  Sql.supplied a (Sql.Field col) = Some x ->
  exists o, In ("student_id", o) a.
Proof.
  intros Himp Ha Hcol Hkey (k & Hin & Hk)%supplied_in.
  destruct (Ha k x Hin) as (v & Hrow & Hv).
  assert (k = "student_id") as ->.
  { apply (imp_keys _ _ Himp k v col); try done.
    unfold Sql.names. by rewrite TextFacts.ci_eqb_sym. }
  by exists x.
Qed.

Lemma collides_false t a r :
  (forall col, In col (Sql.columns t) -> Sql.Key col = true ->
               Sql.supplied a (Sql.Field col) = None) ->
  Sql.collides t a r = false.
Proof.
  intros H. unfold Sql.collides. apply not_true_is_false.
  intros (col & Hin & Hc)%existsb_exists.
  apply andb_true_iff in Hc as [Hkey Hc]. by rewrite (H col Hin Hkey) in Hc.
Qed.

Lemma precheck_importable t row :
  importable (Sql.columns t) row ->
  Sql.precheck t (bind_values (valid_entries row)) = None.
Proof.
  intros Himp. unfold Sql.precheck.
  replace (Sql.unknown_field _ _) with false.
  2: { symmetry. apply not_true_is_false. intros ([k o] & Hin & Hk)%existsb_exists.
       apply bind_values_in in Hin as (v & [Hin Hv]%valid_entries_in & _).
       apply negb_true_iff in Hk. simpl in Hk. unfold Sql.has_column in Hk.
       by rewrite (imp_known _ _ Himp k v) in Hk. }
  rewrite twice_false.
  2: { rewrite bind_values_keys. apply valid_entries_nodup, (imp_object _ _ Himp). }
  replace (Sql.no_default _ _) with false.
  2: { symmetry. apply not_true_is_false. intros (col & Hin & Hc)%existsb_exists.
       apply andb_true_iff in Hc as [Hreq Hc].
       destruct (imp_required _ _ Himp col Hin Hreq) as (k & v & Hrow & Hv & Hk).
       destruct (Sql.supplied _ _) eqn:Hs; [done|].
       rewrite (supplied_none _ _ k (sql_of_js v) Hs) in Hk; [done|].
       apply bind_values_in. exists v. split; [|done]. by apply valid_entries_in. }
  replace (Sql.bad_null _ _) with false; [done|].
  symmetry. apply not_true_is_false. intros (col & Hin & Hc)%existsb_exists.
  apply andb_true_iff in Hc as [_ Hc].
  destruct (Sql.supplied _ _) as [[x|]|] eqn:Hs; try done.
  apply supplied_in in Hs as (k & (v & [_ Hv]%valid_entries_in & Hx)%bind_values_in & _).
  apply nonblank_bound in Hv as (x & Hv). congruence.
Qed.

(** ** Import: rows that the table takes whole (src/server.js) *)

Lemma updateColumns_in row c :
  In c (ServerJs.updateColumns row) ->
  c <> "student_id" /\ In (c, js_get row c) row /\ nonblank (js_get row c) = true.
Proof.
  unfold ServerJs.updateColumns. intros [_ Hc]%filter_In.
  apply andb_true_iff in Hc as [Hne Hv]. split; [|split; [by apply js_get_in|done]].
  intros ->. by rewrite String.eqb_refl in Hne.
Qed.

Lemma updateColumns_more cols row :
  importable cols row -> ServerJs.updateColumns row <> [].
Proof.
  intros Himp Hnil. destruct (imp_more _ _ Himp) as (k & v & Hin & Hv & Hk).
  assert (In k (ServerJs.updateColumns row)) as Hk'; [|by rewrite Hnil in Hk'].
  unfold ServerJs.updateColumns. apply filter_In. split.
  - apply in_keys. by exists v.
  - rewrite (js_get_nodup row k v (importable_nodup _ _ Himp) Hin), Hv.
    by destruct (String.eqb_spec k "student_id").
Qed.

Lemma validEntries_more cols row :
  importable cols row -> ServerJs.validEntries row <> [].
Proof.
  intros Himp Hnil. destruct (imp_more _ _ Himp) as (k & v & Hin & Hv & _).
  assert (In (k, v) (ServerJs.validEntries row)) as Hk; [|by rewrite Hnil in Hk].
  rewrite validEntries_eq. by apply valid_entries_in.
Qed.

(** The UPDATE of an importable row goes through. *)
Lemma update_importable t row :
  importable (Sql.columns t) row ->
  Sql.has_column t "student_id" = true ->
  exists t',
    Sql.update_where t
      (map (fun c => (c, sql_of_js (js_get row c))) (ServerJs.updateColumns row))
      "student_id" (sql_of_js (js_get row "student_id")) = Sql.Ok t'
    /\ Sql.columns t' = Sql.columns t.
Proof.
  intros Himp Hsid.
  set (a := map (fun c => (c, sql_of_js (js_get row c))) (ServerJs.updateColumns row)).
  assert (forall k o, In (k, o) a ->
            k <> "student_id" /\ exists v, In (k, v) row /\ nonblank v = true /\ o = sql_of_js v)
    as Ha.
  { intros k o (c & Heq & Hc)%in_map_iff. injection Heq as <- <-.
    apply updateColumns_in in Hc as (Hne & Hin & Hv). split; [done|].
    by exists (js_get row c). }
  assert (forall col, In col (Sql.columns t) -> Sql.Key col = true ->
            Sql.supplied a (Sql.Field col) = None) as Hkeys.
  { intros col Hcol Hkey. destruct (Sql.supplied a (Sql.Field col)) as [x|] eqn:Hs; [|done].
    destruct (key_written t row a col x) as [o Ho]; try done.
    - intros k o Hin. destruct (Ha k o Hin) as (_ & v & ? & ? & _). by exists v.
    - by destruct (Ha _ _ Ho). }
  unfold Sql.update_where. rewrite Hsid.
  replace (Sql.unknown_field t a) with false.
  2: { symmetry. apply not_true_is_false. intros ([k o] & Hin & Hk)%existsb_exists.
       destruct (Ha k o Hin) as (_ & v & Hrow & Hv & _).
       apply negb_true_iff in Hk. simpl in Hk. unfold Sql.has_column in Hk.
       by rewrite (imp_known _ _ Himp k v) in Hk. }
  cbn [negb orb].
  match goal with |- context [match ?l with [] => _ | _ :: _ => _ end] => destruct l end.
  { by exists t. }
  replace (Sql.nulls_refused t a) with false.
  2: { symmetry. apply not_true_is_false. intros (col & Hin & Hc)%existsb_exists.
       apply andb_true_iff in Hc as [_ Hc].
       destruct (Sql.supplied a (Sql.Field col)) as [[x|]|] eqn:Hs; try done.
       apply supplied_in in Hs as (k & (_ & v & _ & Hv & Hx)%Ha & _).
       apply nonblank_bound in Hv as (x & Hv). congruence. }
  unfold Sql.key_clash.
  rewrite existsb_never by (intros r; by apply collides_false).
  replace (Sql.writes_key t a) with false; [by eexists|].
  symmetry. apply not_true_is_false. intros (col & Hcol & Hc)%existsb_exists.
  apply andb_true_iff in Hc as [Hkey Hc]. by rewrite (Hkeys col Hcol Hkey) in Hc.
Qed.

Lemma collision_names_student_id t row :
  importable (Sql.columns t) row ->
  existsb (Sql.collides t (bind_values (valid_entries row))) (Sql.rows t) = true ->
  Sql.has_column t "student_id" = true.
Proof.
  intros Himp (r & _ & Hr)%existsb_exists.
  unfold Sql.collides in Hr. apply existsb_exists in Hr as (col & Hcol & Hc).
  apply andb_true_iff in Hc as [Hkey Hc].
  destruct (Sql.supplied _ _) as [x|] eqn:Hs; [|done].
  destruct (key_written t row (bind_values (valid_entries row)) col x Himp) as [o Ho];
    try done.
  - intros k o (v & Hin%valid_entries_in & _)%bind_values_in. by exists v.
  - apply bind_values_in in Ho as (v & [Hin Hv]%valid_entries_in & _).
    apply (imp_known _ _ Himp "student_id" v Hin Hv).
Qed.

(** A turn of the loop on an importable row counts the row as processed
    and leaves the columns of the table alone. *)
Lemma upsert_row_importable st row :
  importable (Sql.columns (students (ServerJs.db_of st))) row ->
  ServerJs.insertedCount (ServerJs.upsert_row st row) = S (ServerJs.insertedCount st)
  /\ ServerJs.errorCount (ServerJs.upsert_row st row) = ServerJs.errorCount st
  /\ Sql.columns (students (ServerJs.db_of (ServerJs.upsert_row st row))) =
     Sql.columns (students (ServerJs.db_of st)).
Proof.
  intros Himp. unfold ServerJs.upsert_row.
  pose proof (validEntries_more _ _ Himp) as Hvalid.
  pose proof (updateColumns_more _ _ Himp) as Hupd.
  destruct (ServerJs.validEntries row) as [|e es] eqn:Hve; [done|]. rewrite <- Hve.
  rewrite validEntries_eq. unfold Sql.insert.
  rewrite (precheck_importable _ _ Himp).
  destruct (existsb _ (Sql.rows (students (ServerJs.db_of st)))) eqn:Hdup; [|done].
  unfold ServerJs.on_duplicate.
  destruct (ServerJs.updateColumns row) as [|c cs] eqn:Huc; [done|]. rewrite <- Huc.
  destruct (update_importable _ row Himp) as (t' & -> & Hcols); [|done].
  by apply (collision_names_student_id _ row).
Qed.

Lemma upsert_rows_importable rows st :
  Forall (importable (Sql.columns (students (ServerJs.db_of st)))) rows ->
  ServerJs.insertedCount (foldl ServerJs.upsert_row st rows) =
    ServerJs.insertedCount st + length rows
  /\ ServerJs.errorCount (foldl ServerJs.upsert_row st rows) = ServerJs.errorCount st
  /\ Sql.columns (students (ServerJs.db_of (foldl ServerJs.upsert_row st rows))) =
     Sql.columns (students (ServerJs.db_of st)).
Proof.
  revert st. induction rows as [|row rows IH]; intros st Hrows; simpl.
  - split; [lia|done].
  - inversion Hrows as [|? ? Hrow Hrest]; subst.
    destruct (upsert_row_importable st row Hrow) as (Hi & He & Hc).
    destruct (IH (ServerJs.upsert_row st row)) as (Hi' & He' & Hc').
    { by rewrite Hc. }
    rewrite Hi', He', Hc', Hi, He, Hc. split; [lia|done].
Qed.

(** ** Import: the new columns (src/server.js) *)

Lemma not_included_in ex ks h :
  In h (not_included ex ks) <-> In h ks /\ ~ In h ex.
Proof.
  unfold not_included. rewrite filter_In, negb_true_iff. split.
  - intros [Hk Hex]. split; [done|]. intros Hin.
    assert (existsb (String.eqb h) ex = true); [|congruence].
    apply existsb_exists. exists h. split; [done|apply String.eqb_refl].
  - intros [Hk Hex]. split; [done|]. apply not_true_is_false.
    intros (c & Hc & ->%String.eqb_eq)%existsb_exists. done.
Qed.

Lemma not_included_nodup ex ks : NoDup ks -> NoDup (not_included ex ks).
Proof.
  unfold not_included. induction 1 as [|k ks Hk Hks IH]; simpl; [constructor|].
  destruct (negb _); [|done]. constructor; [|done].
  intros [Hin _]%list_elem_of_In%filter_In. by apply Hk, list_elem_of_In.
Qed.

Lemma not_included_nil ex ks : (forall k, In k ks -> In k ex) -> not_included ex ks = [].
Proof.
  intros H. destruct (not_included ex ks) as [|h l] eqn:Hl; [done|].
  assert (In h (not_included ex ks)) as [Hk Hex]%not_included_in by (rewrite Hl; by left).
  destruct Hex. by apply H.
Qed.

Lemma add_new_column_fields db h :
  Sql.ident_ok h = true ->
  (forall c, In c (map Sql.Field (Sql.columns (students db))) -> apart h c) ->
  Sql.columns (students (ServerJs.add_new_column db h)) =
    Sql.columns (students db) ++ [Sql.varchar h].
Proof.
  intros Hid Hapart. unfold ServerJs.add_new_column.
  cbn [students with_table_columns].
  replace (Sql.show_columns_like (students db) h) with (@nil Sql.column).
  2: { symmetry. unfold Sql.show_columns_like.
       destruct (List.filter _ _) as [|col l] eqn:Hl; [done|].
       assert (In col (List.filter (fun col => Text.like h (Sql.Field col))
                                   (Sql.columns (students db))))
         as [Hcol Hlike]%filter_In by (rewrite Hl; by left).
       destruct (Hapart (Sql.Field col)) as [Hno _]; [by apply in_map|congruence]. }
  unfold Sql.add_column. cbn [students with_table_columns]. rewrite Hid. cbn [negb].
  replace (Sql.has_column (students db) h) with false; [done|].
  symmetry. apply not_true_is_false. intros (col & Hcol & Hname)%existsb_exists.
  destruct (Hapart (Sql.Field col)) as [_ Hno]; [by apply in_map|].
  unfold Sql.names in Hname. congruence.
Qed.

Lemma add_new_columns_fields new db :
  NoDup new ->
  addable (map Sql.Field (Sql.columns (students db))) new ->
  (forall h, In h new -> ~ In h (map Sql.Field (Sql.columns (students db)))) ->
  Sql.columns (students (foldl ServerJs.add_new_column db new)) =
    Sql.columns (students db) ++ map Sql.varchar new.
Proof.
  revert db. induction new as [|h new IH]; intros db Hnd [Hid Hap] Hnew; simpl.
  - by rewrite app_nil_r.
  - inversion Hnd as [|? ? Hh Hnd']; subst. inversion Hid as [|? ? Hidh Hid']; subst.
    assert (Sql.columns (students (ServerJs.add_new_column db h)) =
            Sql.columns (students db) ++ [Sql.varchar h]) as Hcols.
    { apply add_new_column_fields; [done|]. intros c Hc. apply Hap.
      - by left.
      - apply in_app_iff. by left.
      - intros ->. by apply (Hnew h); [left|]. }
    rewrite IH; [by rewrite Hcols, <- app_assoc| done | |].
    + split; [done|]. intros h' c Hh' Hc Hne. apply Hap; [by right| |done].
      rewrite Hcols, map_app, <- app_assoc in Hc. exact Hc.
    + intros h' Hh'. rewrite Hcols, map_app, in_app_iff. intros [Hin|[<-|[]]].
      * by apply (Hnew h'); [right|].
      * by apply Hh, list_elem_of_In.
Qed.

(** ** Import: the same sheet twice (src/server.js) *)

Lemma serverjs_import_all db first rest :
  let new := not_included (map Sql.Field (Sql.columns (students db))) (Object_keys first) in
  addable (map Sql.Field (Sql.columns (students db))) new ->
  Forall (importable (Sql.columns (students db) ++ map Sql.varchar new)) (first :: rest) ->
  exists db1,
    ServerJs.post_upload db (Some (first :: rest)) =
      (db1, Json {| recordsProcessed := length (first :: rest);
                    recordsFailed := Some 0;
                    newColumnsAdded := new |})
    /\ Sql.columns (students db1) = Sql.columns (students db) ++ map Sql.varchar new.
Proof.
  intros new Hadd Hrows.
  assert (Sql.columns (students (foldl ServerJs.add_new_column db new)) =
          Sql.columns (students db) ++ map Sql.varchar new) as Hcols.
  { apply add_new_columns_fields; [|done|].
    - apply not_included_nodup. inversion Hrows as [|? ? Hfirst _]; subst.
      apply (importable_nodup _ _ Hfirst).
    - intros h Hh. by apply not_included_in in Hh as [_ Hh]. }
  set (st := {| ServerJs.db_of := foldl ServerJs.add_new_column db new;
                ServerJs.insertedCount := 0; ServerJs.errorCount := 0 |}).
  destruct (upsert_rows_importable (first :: rest) st) as (Hi & He & Hc).
  { cbn [ServerJs.db_of st]. by rewrite Hcols. }
  exists (ServerJs.db_of (foldl ServerJs.upsert_row st (first :: rest))). split.
  - unfold ServerJs.post_upload. unfold Sql.show_columns. fold new. fold st.
    by rewrite Hi, He.
  - by rewrite Hc.
Qed.

Lemma serverjs_reimport db first rest :
  let new := not_included (map Sql.Field (Sql.columns (students db))) (Object_keys first) in
  addable (map Sql.Field (Sql.columns (students db))) new ->
  Forall (importable (Sql.columns (students db) ++ map Sql.varchar new)) (first :: rest) ->
  exists db1 db2,
    ServerJs.post_upload db (Some (first :: rest)) =
      (db1, Json {| recordsProcessed := length (first :: rest);
                    recordsFailed := Some 0;
                    newColumnsAdded := new |})
    /\ ServerJs.post_upload db1 (Some (first :: rest)) =
      (db2, Json {| recordsProcessed := length (first :: rest);
                    recordsFailed := Some 0;
                    newColumnsAdded := [] |}).
Proof.
  intros new Hadd Hrows.
  destruct (serverjs_import_all db first rest Hadd Hrows) as (db1 & Hrun1 & Hcols).
  assert (not_included (map Sql.Field (Sql.columns (students db1))) (Object_keys first) = [])
    as Hnone.
  { apply not_included_nil. intros k Hk. rewrite Hcols, map_app, in_app_iff.
    destruct (in_dec string_dec k (map Sql.Field (Sql.columns (students db)))) as [|Hno];
      [by left|right].
    rewrite map_map. cbn [Sql.varchar Sql.Field]. rewrite map_id.
    by apply not_included_in. }
  destruct (serverjs_import_all db1 first rest) as (db2 & Hrun2 & _).
  - rewrite Hnone. split; [constructor|]. intros h c [].
  - by rewrite Hnone, app_nil_r, Hcols.
  - exists db1, db2. split; [done|]. by rewrite Hnone in Hrun2.
Qed.

(** ** Import: what a turn of the loop writes (src/server.js) *)

Lemma assign_cons c o a r :
  Sql.assign ((c, o) :: a) r =
  Sql.assign a (match o with
                | Some v => <[Sql.key_of c := v]> r
                | None => delete (Sql.key_of c) r
                end).
Proof. done. Qed.

Lemma assign_lookup a r k :
  Sql.assign a r !! k = r !! k \/
  exists c o, In (c, o) a /\ Sql.key_of c = k /\ Sql.assign a r !! k = o.
Proof.
  revert r. induction a as [|[c o] a IH]; intros r; [by left|].
  rewrite assign_cons.
  destruct (IH (match o with
                | Some v => <[Sql.key_of c := v]> r
                | None => delete (Sql.key_of c) r
                end)) as [Hsame|(c' & o' & Hin & Hk & Hv)].
  - rewrite Hsame. destruct (decide (Sql.key_of c = k)) as [Hk|Hk].
    + right. exists c, o. split; [by left|]. split; [done|].
      subst k. destruct o; [apply lookup_insert_eq|apply lookup_delete_eq].
    + left. destruct o; [by apply lookup_insert_ne|by apply lookup_delete_ne].
  - right. exists c', o'. split; [by right|done].
Qed.

Lemma new_row_lookup t a k x :
  Sql.new_row t a !! k = Some x ->
  exists col, In col (Sql.columns t) /\ Sql.key_of (Sql.Field col) = k /\
              Sql.stored t a col = Some x.
Proof.
  unfold Sql.new_row. induction (Sql.columns t) as [|col cols IH]; simpl; [done|].
  destruct (Sql.stored t a col) as [v|] eqn:Hst.
  - destruct (decide (Sql.key_of (Sql.Field col) = k)) as [Hk|Hk].
    + subst k. rewrite lookup_insert_eq. intros [= <-]. exists col. by split; [left|].
    + rewrite lookup_insert_ne by done. intros (col' & ? & ? & ?)%IH.
      exists col'. by split; [right|].
  - intros (col' & ? & ? & ?)%IH. exists col'. by split; [right|].
Qed.

Lemma js_get_defined row c : js_get row c <> JUndefined -> In (c, js_get row c) row.
Proof.
  induction row as [|[k v] row IH]; simpl; [done|].
  destruct (String.eqb_spec k c) as [->|Hk]; [by left|]. intros H. right. by apply IH.
Qed.

Lemma folded_key_unique row c c' :
  NoDup (map Text.fold_case (Object_keys row)) ->
  In c (Object_keys row) -> In c' (Object_keys row) ->
  Text.fold_case c = Text.fold_case c' -> c = c'.
Proof.
  induction (Object_keys row) as [|k ks IH]; simpl; [done|].
  intros Hnd Hc Hc' Hf. inversion Hnd as [|? ? Hk Hks]; subst.
  destruct Hc as [->|Hc], Hc' as [->|Hc']; try done.
  - destruct Hk. apply list_elem_of_In. rewrite Hf. by apply in_map.
  - destruct Hk. apply list_elem_of_In. rewrite <- Hf. by apply in_map.
  - by apply IH.
Qed.

Lemma kept_refl row r : kept row r r.
Proof. intros k. by left. Qed.

Lemma kept_all row (f : gmap string string -> gmap string string) rows :
  (forall r, kept row r (f r)) -> Forall2 (kept row) rows (map f rows).
Proof. intros H. induction rows; simpl; constructor; auto. Qed.

(** The UPDATE statement of the loop changes a record only in the
    attributes the row has non-blank values for, never in [student_id]. *)
Lemma update_kept row r :
  NoDup (map Text.fold_case (Object_keys row)) ->
  sql_of_js (js_get row "student_id") <> None ->
  kept row r
    (Sql.assign (map (fun c => (c, sql_of_js (js_get row c))) (ServerJs.updateColumns row)) r).
Proof.
  intros Hnd Hsid k.
  destruct (assign_lookup
              (map (fun c => (c, sql_of_js (js_get row c))) (ServerJs.updateColumns row)) r k)
    as [Hsame|(c & o & Hin & Hk & Hv)]; [by left|right].
  apply in_map_iff in Hin as (c' & Heq & Hc). injection Heq as -> <-.
  apply updateColumns_in in Hc as (Hne & Hin & Hv').
  split; [|by exists c, (js_get row c)].
  intros Hfold. subst k. apply Hne.
  apply (folded_key_unique row); try done.
  - apply in_keys. by exists (js_get row c).
  - apply in_keys. exists (js_get row "student_id"). apply js_get_defined.
    intros Hu. by rewrite Hu in Hsid.
Qed.

Lemma insert_written t row :
  written t row (Sql.new_row t (bind_values (valid_entries row))).
Proof.
  intros k x (col & Hcol & Hk & Hst)%new_row_lookup.
  unfold Sql.stored in Hst.
  destruct (Sql.supplied _ _) as [[v|]|] eqn:Hs.
  - left. injection Hst as ->.
    apply supplied_in in Hs as (c & (w & [Hin Hw]%valid_entries_in & Hx)%bind_values_in & Hc).
    exists c, w. repeat split; try done.
    unfold Sql.key_of in *. apply TextFacts.ci_eqb_spec in Hc. congruence.
  - right. exists col. repeat split; try done.
    unfold Sql.is_auto in Hst. destruct (Sql.Default col); congruence.
  - right. exists col. repeat split; try done.
    destruct (Sql.Default col); congruence.
Qed.

Lemma unchanged_writes (t : Sql.table) row :
  exists olds news,
    Sql.rows t = olds ++ news
    /\ Forall2 (kept row) (Sql.rows t) olds
    /\ Forall (written t row) news.
Proof.
  exists (Sql.rows t), []. rewrite app_nil_r.
  split; [done|]. split; [|constructor].
  rewrite <- (map_id (Sql.rows t)) at 2. apply kept_all, kept_refl.
Qed.

Lemma on_duplicate_writes st row :
  NoDup (map Text.fold_case (Object_keys row)) ->
  exists olds news,
    Sql.rows (students (ServerJs.db_of (ServerJs.on_duplicate st row))) = olds ++ news
    /\ Forall2 (kept row) (Sql.rows (students (ServerJs.db_of st))) olds
    /\ Forall (written (students (ServerJs.db_of st)) row) news.
Proof.
  intros Hnd. pose proof (unchanged_writes (students (ServerJs.db_of st)) row) as Hsame.
  unfold ServerJs.on_duplicate.
  destruct (ServerJs.updateColumns row) as [|c cs] eqn:Huc; [done|]. rewrite <- Huc.
  unfold Sql.update_where.
  destruct (_ || _); [done|].
  match goal with |- context [match ?l with [] => _ | _ :: _ => _ end] => destruct l end;
    [by rewrite with_students_same|].
  destruct (Sql.nulls_refused _ _); [done|].
  destruct (Sql.key_clash _ _ _); [done|].
  destruct (_ && _); [done|].
  eexists _, []. cbn [ServerJs.db_of students with_students Sql.rows Sql.with_rows].
  rewrite app_nil_r. split; [done|]. split; [|constructor].
  apply kept_all. intros r.
  destruct (sql_of_js (js_get row "student_id")) as [sid|] eqn:Hsid; [|apply kept_refl].
  destruct (Sql.same_text _ _); [|apply kept_refl].
  apply update_kept; [done|]. by rewrite Hsid.
Qed.

(** In src/server.js one turn of the row loop leaves blank values out
    of what it writes: the records stored before keep every attribute,
    except those for which the row brings a non-blank value,
    [student_id] is among the kept ones, and a record that is added
    holds only non-blank values of the row and the values the engine
    generates. *)
Lemma serverjs_upsert_row_writes st row :
  NoDup (map Text.fold_case (Object_keys row)) ->
  exists olds news,
    Sql.rows (students (ServerJs.db_of (ServerJs.upsert_row st row))) = olds ++ news
    /\ Forall2 (kept row) (Sql.rows (students (ServerJs.db_of st))) olds
    /\ Forall (written (students (ServerJs.db_of st)) row) news.
Proof.
  intros Hnd. pose proof (unchanged_writes (students (ServerJs.db_of st)) row) as Hsame.
  pose proof (on_duplicate_writes st row Hnd) as Hdup.
  unfold ServerJs.upsert_row.
  destruct (ServerJs.validEntries row) as [|e es] eqn:Hve; [done|]. rewrite <- Hve.
  rewrite validEntries_eq. unfold Sql.insert.
  destruct (Sql.precheck _ _) as [err|]; [by destruct err|].
  destruct (existsb _ (Sql.rows (students (ServerJs.db_of st)))); [done|].
  eexists _, [_]. cbn [ServerJs.db_of students with_students Sql.rows].
  split; [done|]. split.
  - rewrite <- (map_id (Sql.rows _)) at 2. apply kept_all, kept_refl.
  - constructor; [apply insert_written|constructor].
Qed.

(** ** Import: rows that the table takes whole (second variant) *)

Lemma bind_all (row : jsobject) :
  zip (Object_keys row) (map sql_of_js (Object_values row)) = bind_values row.
Proof.
  unfold Object_keys, Object_values, bind_values.
  induction row as [|[k v] row IH]; simpl; [done|]. by f_equal.
Qed.

Lemma filled_valid row : filled row -> valid_entries row = row.
Proof.
  intros Hf. unfold valid_entries. apply filter_all.
  intros e He. unfold filled in Hf. rewrite Forall_forall in Hf.
  by apply Hf, list_elem_of_In.
Qed.

Lemma supplied_fold a c c' :
  Text.fold_case c = Text.fold_case c' -> Sql.supplied a c = Sql.supplied a c'.
Proof.
  intros Hf. induction a as [|[k o] a IH]; simpl; [done|].
  unfold Text.ci_eqb. by rewrite Hf, IH.
Qed.

Lemma supplied_unique (a : Sql.assignment) k o :
  NoDup (map Text.fold_case a.*1) -> In (k, o) a -> Sql.supplied a k = Some o.
Proof.
  induction a as [|[k' o'] a IH]; simpl; [done|].
  intros Hnd Hin. inversion Hnd as [|? ? Hk Hks]; subst.
  destruct Hin as [[= -> ->]|Hin]; [by rewrite TextFacts.ci_eqb_refl|].
  destruct (Text.ci_eqb k' k) eqn:Hkk; [|by apply IH].
  destruct Hk. apply list_elem_of_In. apply TextFacts.ci_eqb_spec in Hkk. rewrite Hkk.
  apply in_map, in_keys. by exists o.
Qed.

Section Part000Row.

Variable t : Sql.table.
Variable row : jsobject.
Variable v : jsval.
Variable x : string.
Hypothesis Himp : importable (Sql.columns t) row.
Hypothesis Hfilled : filled row.
Hypothesis Hsid : In ("student_id", v) row.
Hypothesis Hx : sql_of_js v = Some x.
Hypothesis Hkeyed : keyed t.

Local Abbreviation sk := (Sql.key_of "student_id").
Local Abbreviation hit := (carries sk x).

Lemma part000_supplied : Sql.supplied (bind_values row) "student_id" = Some (Some x).
Proof.
  rewrite <- Hx. apply supplied_unique.
  - rewrite bind_values_keys. apply (imp_object _ _ Himp).
  - apply bind_values_in. by exists v.
Qed.

Lemma part000_all_valid k o :
  In (k, o) (bind_values row) -> exists w, In (k, w) row /\ nonblank w = true.
Proof.
  intros (w & Hin & _)%bind_values_in. exists w. split; [done|].
  unfold filled in Hfilled. rewrite Forall_forall in Hfilled.
  by apply (Hfilled (k, w)), list_elem_of_In.
Qed.

Lemma part000_collides r : Sql.collides t (bind_values row) r = hit r.
Proof.
  unfold carries. destruct (Sql.same_text x (r !! sk)) eqn:Hhit.
  - unfold Sql.collides. apply existsb_exists.
    pose proof (keyed_column _ Hkeyed) as (col & Hcol & Hname)%existsb_exists.
    exists col. split; [done|].
    rewrite (keyed_unique _ Hkeyed col Hcol Hname). cbn [andb].
    unfold Sql.names in Hname. apply TextFacts.ci_eqb_spec in Hname.
    rewrite (supplied_fold _ _ "student_id" Hname), part000_supplied.
    unfold Sql.key_of. by rewrite Hname.
  - apply not_true_is_false. intros (col & Hcol & Hc)%existsb_exists.
    apply andb_true_iff in Hc as [Hkey Hc].
    destruct (Sql.supplied (bind_values row) (Sql.Field col)) as [[v0|]|] eqn:Hs; try done.
    pose proof Hs as (k & Hin & Hk)%supplied_in.
    destruct (part000_all_valid k (Some v0) Hin) as (w & Hw & Hnb).
    assert (k = "student_id") as ->.
    { apply (imp_keys _ _ Himp k w col); try done.
      unfold Sql.names. by rewrite TextFacts.ci_eqb_sym. }
    apply TextFacts.ci_eqb_spec in Hk.
    rewrite <- (supplied_fold _ _ _ Hk), part000_supplied in Hs. injection Hs as <-.
    unfold Sql.key_of in Hc, Hhit. rewrite <- Hk in Hc. congruence.
Qed.

Lemma part000_precheck : Sql.precheck t (bind_values row) = None.
Proof. rewrite <- (filled_valid row Hfilled) at 1. by apply precheck_importable. Qed.

Lemma part000_no_nulls : Sql.nulls_refused t (bind_values row) = false.
Proof.
  apply not_true_is_false. intros (col & Hin & Hc)%existsb_exists.
  apply andb_true_iff in Hc as [_ Hc].
  destruct (Sql.supplied _ _) as [[y|]|] eqn:Hs; try done.
  apply supplied_in in Hs as (k & (w & Hw & Hnone)%bind_values_in & _).
  unfold filled in Hfilled. rewrite Forall_forall in Hfilled.
  apply list_elem_of_In, Hfilled in Hw. cbn [snd] in Hw.
  apply nonblank_bound in Hw as (y & Hy). congruence.
Qed.

(** A record that receives the row holds the row's student id. *)
Lemma part000_assign_hit r : hit r = true -> hit (Sql.assign (bind_values row) r) = true.
Proof.
  intros Hr. unfold carries in *.
  destruct (assign_lookup (bind_values row) r sk) as [->|(c & o & Hin & Hk & ->)]; [done|].
  apply bind_values_in in Hin as (w & Hw & ->).
  assert (c = "student_id") as ->.
  { apply (folded_key_unique row); try done.
    - apply (imp_object _ _ Himp).
    - apply in_keys. by exists w.
    - apply in_keys. by exists v. }
  rewrite <- (js_get_nodup row _ w (importable_nodup _ _ Himp) Hw).
  rewrite (js_get_nodup row _ v (importable_nodup _ _ Himp) Hsid), Hx.
  apply TextFacts.ci_eqb_refl.
Qed.

(** The record that is added holds the row's student id, if any. *)
Lemma part000_new_row_hit y :
  Sql.new_row t (bind_values row) !! sk = Some y -> y = x.
Proof.
  intros (col & Hcol & Hk & Hst)%new_row_lookup.
  unfold Sql.stored in Hst.
  rewrite (supplied_fold _ _ "student_id" Hk), part000_supplied in Hst. congruence.
Qed.

End Part000Row.

(** ** The unique key under the writes of the second variant *)

Section UniqueKey.

Variable k : string.
Variable x : string.

Local Abbreviation hit := (carries k x).

Lemma hit_clash r r' : hit r = true -> hit r' = true -> clash k r r'.
Proof.
  unfold carries, Sql.same_text, clash. intros Hr Hr'.
  destruct (r !! k) as [a|]; [|done]. destruct (r' !! k) as [b|]; [|done].
  exists a, b. repeat split. rewrite TextFacts.ci_eqb_sym in Hr.
  by apply (TextFacts.ci_eqb_trans a x b).
Qed.

Lemma clash_hit r r' : clash k r r' -> hit r' = true -> hit r = true.
Proof.
  unfold carries, Sql.same_text, clash. intros (a & b & -> & -> & Hab) Hb.
  rewrite TextFacts.ci_eqb_sym in Hab. by apply (TextFacts.ci_eqb_trans x b a).
Qed.

Lemma clash_sym r r' : clash k r r' -> clash k r' r.
Proof.
  intros (a & b & Ha & Hb & Hab). exists b, a. repeat split; try done.
  by rewrite TextFacts.ci_eqb_sym.
Qed.

Lemma remove_first_quiet rs :
  distinct_on k rs -> existsb hit (Sql.remove_first hit rs) = false.
Proof.
  induction rs as [|r rs IH]; simpl; [done|]. intros [Hr Hrs].
  destruct (hit r) eqn:Hh.
  - apply not_true_is_false. intros (r' & Hin & Hh')%existsb_exists.
    by apply (Hr r' Hin), hit_clash.
  - simpl. rewrite Hh. by apply IH.
Qed.

Lemma update_first_in (f : gmap string string -> gmap string string) rs r' :
  In r' (Sql.update_first hit f rs) ->
  In r' rs \/ exists r0, In r0 rs /\ hit r0 = true /\ r' = f r0.
Proof.
  induction rs as [|r rs IH]; simpl; [done|].
  destruct (hit r) eqn:Hh; simpl.
  - intros [<-|Hin]; [right; exists r; by split; [left|]|left; by right].
  - intros [<-|Hin]; [left; by left|].
    destruct (IH Hin) as [?|(r0 & ? & ? & ?)]; [left; by right|].
    right. exists r0. by split; [right|].
Qed.

Lemma update_first_distinct (f : gmap string string -> gmap string string) rs :
  (forall r, hit r = true -> hit (f r) = true) ->
  distinct_on k rs -> distinct_on k (Sql.update_first hit f rs).
Proof.
  intros Hf. induction rs as [|r rs IH]; simpl; [done|]. intros [Hr Hrs].
  destruct (hit r) eqn:Hh; simpl.
  - split; [|done]. intros r' Hin Hc. apply (Hr r' Hin).
    apply hit_clash; [done|]. apply clash_sym in Hc. by apply (clash_hit r' (f r)), Hf.
  - split; [|by apply IH]. intros r' Hin Hc.
    destruct (update_first_in f rs r' Hin) as [Hin'|(r0 & Hin' & H0 & ->)].
    + by apply (Hr r' Hin').
    + assert (hit r = true); [|congruence]. by apply (clash_hit r (f r0)), Hf.
Qed.

Lemma append_distinct rs n :
  existsb hit rs = false ->
  (forall y, n !! k = Some y -> y = x) ->
  distinct_on k rs -> distinct_on k (rs ++ [n]).
Proof.
  intros Hnone Hn. induction rs as [|r rs IH]; simpl; [done|]. intros [Hr Hrs].
  simpl in Hnone. apply orb_false_iff in Hnone as [Hh Hnone].
  split; [|by apply IH]. intros r' [Hin|[<-|[]]]%in_app_iff; [by apply Hr|].
  intros (a & b & Ha & Hb & Hab). rewrite (Hn b Hb) in Hab.
  unfold carries in Hh. rewrite Ha in Hh. simpl in Hh.
  rewrite TextFacts.ci_eqb_sym in Hab. congruence.
Qed.

End UniqueKey.

Lemma update_first_ext p q f rs :
  (forall r, p r = q r) -> Sql.update_first p f rs = Sql.update_first q f rs.
Proof. intros H. induction rs as [|r rs IH]; simpl; [done|]. by rewrite H, IH. Qed.

Lemma remove_first_ext p q rs :
  (forall r, p r = q r) -> Sql.remove_first p rs = Sql.remove_first q rs.
Proof. intros H. induction rs as [|r rs IH]; simpl; [done|]. by rewrite H, IH. Qed.

Lemma existsb_ext' {A} (p q : A -> bool) l :
  (forall r, p r = q r) -> existsb p l = existsb q l.
Proof. intros H. induction l as [|r l IH]; simpl; [done|]. by rewrite H, IH. Qed.

(** A turn of the loop of the second variant on a row of a whole sheet
    counts the row and keeps the columns and the unique key. *)
Lemma part000_upsert_row_ok db n row :
  importable (Sql.columns (students db)) row ->
  filled row ->
  (exists v, In ("student_id", v) row) ->
  keyed (students db) ->
  exists db',
    Part000.upsert_row (db, n) row = (db', S n)
    /\ Sql.columns (students db') = Sql.columns (students db)
    /\ table_columns db' = table_columns db
    /\ keyed (students db').
Proof.
  intros Himp Hfilled [v Hsid] Hkeyed.
  assert (exists x, sql_of_js v = Some x) as [x Hx].
  { apply nonblank_bound. unfold filled in Hfilled. rewrite Forall_forall in Hfilled.
    by apply (Hfilled ("student_id", v)), list_elem_of_In. }
  pose proof (part000_collides _ row v x Himp Hfilled Hsid Hx Hkeyed) as Hcol.
  unfold Part000.upsert_row. cbn [fst snd]. rewrite bind_all.
  unfold Sql.insert_or_update.
  rewrite (part000_precheck _ row Himp Hfilled).
  rewrite (existsb_ext' _ _ _ Hcol).
  destruct (existsb _ (Sql.rows (students db))) eqn:Hdup.
  - rewrite (part000_no_nulls _ row Hfilled). unfold Sql.key_clash.
    rewrite (remove_first_ext _ _ _ Hcol), (existsb_ext' _ _ _ Hcol).
    rewrite remove_first_quiet by apply (keyed_rows _ Hkeyed).
    rewrite (update_first_ext _ _ _ _ Hcol).
    eexists. split; [done|]. split; [done|]. split; [done|].
    destruct Hkeyed as [Hc Hu Hr]. split; [done|done|].
    cbn [students with_students Sql.rows Sql.with_rows].
    apply update_first_distinct; [|done].
    intros r. by apply (part000_assign_hit (students db) row v x).
  - eexists. split; [done|]. split; [done|]. split; [done|].
    destruct Hkeyed as [Hc Hu Hr]. split; [done|done|].
    cbn [students with_students Sql.rows].
    apply (append_distinct _ x); [done| |done].
    intros y. apply (part000_new_row_hit (students db) row v x); try done.
Qed.

Lemma part000_upsert_rows_ok rows db n :
  Forall (importable (Sql.columns (students db))) rows ->
  Forall filled rows ->
  Forall (fun row => exists v, In ("student_id", v) row) rows ->
  keyed (students db) ->
  exists db',
    foldl Part000.upsert_row (db, n) rows = (db', n + length rows)
    /\ Sql.columns (students db') = Sql.columns (students db)
    /\ table_columns db' = table_columns db
    /\ keyed (students db').
Proof.
  revert db n. induction rows as [|row rows IH]; intros db n Himp Hf Hs Hk; simpl.
  - exists db. by rewrite Nat.add_0_r.
  - inversion Himp; inversion Hf; inversion Hs; subst.
    destruct (part000_upsert_row_ok db n row) as (db1 & -> & Hc1 & Ht1 & Hk1); try done.
    destruct (IH db1 (S n)) as (db' & -> & Hc' & Ht' & Hk'); try done.
    { by rewrite Hc1. }
    exists db'. split; [f_equal; lia|]. by rewrite Hc', Ht'.
Qed.

(** ** Import: the new columns and the same sheet twice (second variant) *)

Lemma extended_keyed t h :
  keyed t -> Sql.has_column t h = false ->
  keyed (Sql.with_columns t (Sql.columns t ++ [Sql.varchar h])).
Proof.
  intros [Hc Hu Hr] Hh. split; cbn [Sql.with_columns Sql.columns Sql.rows]; [| |done].
  - unfold Sql.has_column in *. cbn [Sql.with_columns Sql.columns].
    rewrite existsb_app. by rewrite Hc.
  - intros col [Hin|[<-|[]]]%in_app_iff Hname; [by apply Hu|].
    apply existsb_exists in Hc as (col0 & Hcol0 & Hname0).
    assert (existsb (Sql.names h) (Sql.columns t) = true); [|unfold Sql.has_column in Hh; congruence].
    apply existsb_exists. exists col0. split; [done|].
    unfold Sql.names in *. cbn [Sql.varchar Sql.Field] in Hname.
    rewrite TextFacts.ci_eqb_sym in Hname. by apply (TextFacts.ci_eqb_trans _ "student_id").
Qed.

Lemma part000_add_new_columns hs db :
  Forall (fun h => Sql.ident_ok h = true) hs ->
  exists db1,
    Part000.add_new_columns db hs = (db1, None)
    /\ Sql.columns (students db1) = extended (Sql.columns (students db)) hs
    /\ table_columns db1 = foldl Registry.insert_ignore (table_columns db) hs
    /\ (keyed (students db) -> keyed (students db1)).
Proof.
  revert db. induction hs as [|h hs IH]; intros db Hid; simpl.
  - by exists db.
  - inversion Hid as [|? ? Hh Hhs]; subst.
    unfold Sql.add_column_if_not_exists. cbn [students with_table_columns].
    rewrite Hh. cbn [negb]. unfold Sql.has_column at 1.
    destruct (existsb (Sql.names h) (Sql.columns (students db))) eqn:Hex.
    + destruct (IH (with_students
                      (with_table_columns db (Registry.insert_ignore (table_columns db) h))
                      (students db)) Hhs) as (db1 & -> & Hc & Ht & Hk).
      cbn [students with_students table_columns with_table_columns] in Hc, Ht, Hk.
      exists db1. split; [done|]. split; [done|]. split; [done|]. done.
    + destruct (IH (with_students
                      (with_table_columns db (Registry.insert_ignore (table_columns db) h))
                      (Sql.with_columns (students db)
                         (Sql.columns (students db) ++ [Sql.varchar h]))) Hhs)
        as (db1 & -> & Hc & Ht & Hk).
      cbn [students with_students table_columns with_table_columns] in Hc, Ht, Hk.
      exists db1. split; [done|]. split; [done|]. split; [done|].
      intros Hkeyed. by apply Hk, extended_keyed.
Qed.

Lemma registry_after hs reg :
  NoDup (map Text.fold_case hs) ->
  (forall h e, In h hs -> In e reg -> Text.ci_eqb (Registry.column_name e) h = false) ->
  map Registry.column_name (foldl Registry.insert_ignore reg hs) =
    map Registry.column_name reg ++ hs.
Proof.
  revert reg. induction hs as [|h hs IH]; intros reg Hnd Hreg; simpl.
  - by rewrite app_nil_r.
  - inversion Hnd as [|? ? Hh Hhs]; subst.
    assert (Registry.insert_ignore reg h = reg ++ [Registry.fresh h]) as ->.
    { unfold Registry.insert_ignore, Registry.select_by_name.
      destruct (List.filter _ reg) as [|e l] eqn:Hl; [done|].
      assert (In e (List.filter (fun e => Text.ci_eqb (Registry.column_name e) h) reg))
        as [He Hc]%filter_In by (rewrite Hl; by left).
      rewrite (Hreg h e) in Hc; [done|by left|done]. }
    rewrite IH; [by rewrite map_app, <- app_assoc|done|].
    intros h' e Hh' [He|[<-|[]]]%in_app_iff; [apply Hreg; [by right|done]|].
    cbn [Registry.fresh Registry.column_name].
    apply not_true_is_false. intros Hc%TextFacts.ci_eqb_spec.
    apply Hh, list_elem_of_In. rewrite Hc. by apply in_map.
Qed.

Lemma part000_import_all db first rest :
  whole_sheet_part000 db (first :: rest) ->
  exists db1,
    Part000.post_upload db (Some (first :: rest)) =
      (db1, Json {| recordsProcessed := length (first :: rest);
                    recordsFailed := None;
                    newColumnsAdded := part000_new db (first :: rest) |})
    /\ Sql.columns (students db1) =
         extended (Sql.columns (students db)) (part000_new db (first :: rest))
    /\ map Registry.column_name (table_columns db1) =
         map Registry.column_name (table_columns db) ++ part000_new db (first :: rest)
    /\ keyed (students db1).
Proof.
  intros [Hid Hreg Hrows Hfilled Hstud Hkeyed].
  set (new := part000_new db (first :: rest)) in *.
  destruct (part000_add_new_columns new db Hid) as (db0 & Hadd & Hc0 & Ht0 & Hk0).
  destruct (part000_upsert_rows_ok (first :: rest) db0 0) as (db1 & Hloop & Hc1 & Ht1 & Hk1);
    try done.
  { by rewrite Hc0. }
  { by apply Hk0. }
  exists db1. split; [|split; [by rewrite Hc1|split; [|done]]].
  - unfold Part000.post_upload.
    change (not_included (baseColumns ++ map Registry.column_name (table_columns db))
                         (Object_keys first)) with new.
    by rewrite Hadd, Hloop.
  - rewrite Ht1, Ht0. apply registry_after; [|done].
    inversion Hrows as [|? ? Hfirst _]; subst.
    pose proof (imp_object _ _ Hfirst) as Hnd.
    unfold new, part000_new, not_included. cbn [hd].
    induction (Object_keys first) as [|k ks IH]; simpl; [constructor|].
    inversion Hnd as [|? ? Hk Hks]; subst.
    destruct (negb _); simpl; [|by apply IH].
    constructor; [|by apply IH].
    intros (k' & Hf & [Hin _]%filter_In)%list_elem_of_In%in_map_iff.
    apply Hk, list_elem_of_In. rewrite <- Hf. by apply in_map.
Qed.

Lemma extended_nil cols : extended cols [] = cols.
Proof. done. Qed.

Lemma part000_reimport db first rest :
  whole_sheet_part000 db (first :: rest) ->
  exists db1 db2,
    Part000.post_upload db (Some (first :: rest)) =
      (db1, Json {| recordsProcessed := length (first :: rest);
                    recordsFailed := None;
                    newColumnsAdded := part000_new db (first :: rest) |})
    /\ Part000.post_upload db1 (Some (first :: rest)) =
      (db2, Json {| recordsProcessed := length (first :: rest);
                    recordsFailed := None;
                    newColumnsAdded := [] |}).
Proof.
  intros Hsheet.
  destruct (part000_import_all db first rest Hsheet) as (db1 & Hrun1 & Hcols & Hreg & Hkeyed).
  assert (part000_new db1 (first :: rest) = []) as Hnone.
  { unfold part000_new. apply not_included_nil. intros k Hk. cbn [hd] in Hk.
    rewrite Hreg, app_assoc, in_app_iff.
    destruct (in_dec string_dec k
                (baseColumns ++ map Registry.column_name (table_columns db))) as [|Hno];
      [by left|right].
    by apply not_included_in. }
  destruct (part000_import_all db1 first rest) as (db2 & Hrun2 & _).
  - destruct Hsheet as [Hid Hr Hrows Hfilled Hstud _].
    split; rewrite ?Hnone; try done.
    by rewrite extended_nil, Hcols.
  - exists db1, db2. split; [done|]. by rewrite Hnone in Hrun2.
Qed.



Lemma sample_house_importable :
  importable (students_columns ++ [Sql.varchar "house"])
             (Sample.student "S1" "Alice" "10A" "B" ++ [("house", JStr "Red")]).
Proof.
  split.
  - compute_done.
  - intros k v Hin _. each_in Hin; by vm_compute.
  - intros col Hin Hreq. each_in Hin; try (by vm_compute in Hreq).
    + exists "student_id", (JStr "S1"). split; [by left|by vm_compute].
    + exists "name", (JStr "Alice"). split; [right; by left|by vm_compute].
    + exists "class", (JStr "10A"). split; [do 2 right; by left|by vm_compute].
    + exists "section", (JStr "B"). split; [do 3 right; by left|by vm_compute].
  - intros k v col Hin _ Hcol Hname Hkey.
    each_in Hin; try done; each_in Hcol; by vm_compute in Hname, Hkey.
  - exists "name", (JStr "Alice"). split; [right; by left|by vm_compute].
Qed.

Lemma sample_whole_serverjs : whole_sheet_serverjs Sample.db0 Sample.sheet_house.
Proof.
  split.
  - split.
    + repeat constructor.
    + intros h c Hh Hc Hne. vm_compute in Hh, Hc.
      each_in Hh; each_in Hc; try done; split; by vm_compute.
  - constructor; [apply sample_house_importable|constructor].
Qed.

Lemma sample_whole_part000 : whole_sheet_part000 Sample.db0 Sample.sheet_house.
Proof.
  split.
  - repeat constructor.
  - intros h e _ [].
  - constructor; [apply sample_house_importable|constructor].
  - repeat constructor.
  - constructor; [|constructor]. exists (JStr "S1"). by left.
  - split; [by vm_compute| |done].
    intros col Hin Hname. each_in Hin; by vm_compute in Hname.
Qed.


(** ** Import: a row that the table refuses (src/server.js) *)

Lemma supplied_absent a c :
  (forall k o, In (k, o) a -> Text.ci_eqb k c = false) -> Sql.supplied a c = None.
Proof.
  induction a as [|[k o] a IH]; simpl; [done|]. intros H.
  rewrite (H k o) by (by left). apply IH. intros k' o' Hin. apply (H k' o'). by right.
Qed.

Lemma precheck_lacking t row :
  lacking (Sql.columns t) row ->
  Sql.precheck t (bind_values (valid_entries row)) = Some Sql.ER_NO_DEFAULT_FOR_FIELD.
Proof.
  intros Hl. unfold Sql.precheck.
  replace (Sql.unknown_field _ _) with false.
  2: { symmetry. apply not_true_is_false. intros ([k o] & Hin & Hk)%existsb_exists.
       apply bind_values_in in Hin as (v & [Hin Hv]%valid_entries_in & _).
       apply negb_true_iff in Hk. simpl in Hk. unfold Sql.has_column in Hk.
       by rewrite (lack_known _ _ Hl k v) in Hk. }
  rewrite twice_false.
  2: { rewrite bind_values_keys. apply valid_entries_nodup, (lack_object _ _ Hl). }
  replace (Sql.no_default _ _) with true; [done|].
  symmetry. apply existsb_exists.
  destruct (lack_required _ _ Hl) as (col & Hcol & Hreq & Hnone).
  exists col. split; [done|]. rewrite Hreq. cbn [andb].
  rewrite supplied_absent; [done|].
  intros k o (v & [Hin Hv]%valid_entries_in & _)%bind_values_in. by apply (Hnone k v).
Qed.

(** Such a row is counted as failed, and the database stays as it is. *)
Lemma upsert_row_lacking st row :
  lacking (Sql.columns (students (ServerJs.db_of st))) row ->
  ServerJs.upsert_row st row =
    {| ServerJs.db_of := ServerJs.db_of st;
       ServerJs.insertedCount := ServerJs.insertedCount st;
       ServerJs.errorCount := S (ServerJs.errorCount st) |}.
Proof.
  intros Hl. unfold ServerJs.upsert_row.
  destruct (ServerJs.validEntries row) as [|e es] eqn:Hve.
  - destruct (lack_some _ _ Hl) as (k & v & Hin & Hv).
    assert (In (k, v) (ServerJs.validEntries row)) as Hk; [|by rewrite Hve in Hk].
    rewrite validEntries_eq. by apply valid_entries_in.
  - rewrite <- Hve, validEntries_eq. unfold Sql.insert. by rewrite (precheck_lacking _ _ Hl).
Qed.

(** In src/server.js a sheet of importable rows with one row that the
    table refuses is imported but for that row: the refused row is the
    one failure, and every other row is processed. *)
Lemma serverjs_one_row_refused db before bad after :
  let rows := before ++ bad :: after in
  let new := not_included (map Sql.Field (Sql.columns (students db)))
                          (Object_keys (hd [] rows)) in
  addable (map Sql.Field (Sql.columns (students db))) new ->
  Forall (importable (Sql.columns (students db) ++ map Sql.varchar new)) (before ++ after) ->
  lacking (Sql.columns (students db) ++ map Sql.varchar new) bad ->
  (ServerJs.post_upload db (Some rows)).2 =
    Json {| recordsProcessed := length before + length after;
            recordsFailed := Some 1;
            newColumnsAdded := new |}.
Proof.
  intros rows new Hadd Himp Hbad.
  assert (Sql.columns (students (foldl ServerJs.add_new_column db new)) =
          Sql.columns (students db) ++ map Sql.varchar new) as Hcols.
  { apply add_new_columns_fields; [|done|].
    - apply not_included_nodup, nodup_unfolded. unfold rows.
      destruct before as [|first before]; cbn [hd app].
      + apply (lack_object _ _ Hbad).
      + inversion Himp as [|? ? Hfirst _]; subst. apply (imp_object _ _ Hfirst).
    - intros h Hh. by apply not_included_in in Hh as [_ Hh]. }
  set (st := {| ServerJs.db_of := foldl ServerJs.add_new_column db new;
                ServerJs.insertedCount := 0; ServerJs.errorCount := 0 |}).
  assert ((ServerJs.post_upload db (Some rows)).2 =
          Json {| recordsProcessed := ServerJs.insertedCount (foldl ServerJs.upsert_row st rows);
                  recordsFailed := Some (ServerJs.errorCount (foldl ServerJs.upsert_row st rows));
                  newColumnsAdded := new |}) as ->.
  { unfold ServerJs.post_upload, new, st. destruct rows as [|first rest] eqn:Hrows; [|done].
    unfold rows in Hrows. by destruct before. }
  apply Forall_app in Himp as [Hbefore Hafter].
  unfold rows. rewrite foldl_app. cbn [foldl].
  destruct (upsert_rows_importable before st) as (Hi & He & Hc).
  { cbn [ServerJs.db_of st]. by rewrite Hcols. }
  rewrite upsert_row_lacking by (by rewrite Hc; cbn [ServerJs.db_of st]; rewrite Hcols).
  match goal with
  | |- context [foldl ServerJs.upsert_row ?s after] =>
      destruct (upsert_rows_importable after s) as (Hi' & He' & _)
  end.
  { cbn [ServerJs.db_of]. by rewrite Hc; cbn [ServerJs.db_of st]; rewrite Hcols. }
  rewrite Hi', He'. cbn [ServerJs.insertedCount ServerJs.errorCount].
  by rewrite Hi, He.
Qed.

(** * Further properties of the routes *)

(** ** Start of the server (src/server.js) *)

Lemma initDB_from_connects connects now stored retries k j :
  j <= retries ->
  connects (k + j) = true ->
  (forall i, i < j -> connects (k + i) = false) ->
  initDB_from connects now stored k retries =
    {| outcome := Connected (ensure_tables now stored);
       attempts := S (k + j); waited := 5000 * (k + j) |}.
Proof.
  revert k j. induction retries as [|r IH]; intros k j Hj Hok Hfail.
  - assert (j = 0) as -> by lia. rewrite Nat.add_0_r in *.
    cbn [initDB_from]. by rewrite Hok.
  - cbn [initDB_from]. destruct j as [|j].
    + rewrite Nat.add_0_r in *. by rewrite Hok.
    + rewrite <- (Nat.add_0_r k) at 1. rewrite (Hfail 0) by lia.
      rewrite (IH (S k) j); [|lia| |].
      * by replace (S k + j) with (k + S j) by lia.
      * by replace (S k + j) with (k + S j) by lia.
      * intros i Hi. replace (S k + i) with (k + S i) by lia. apply Hfail. lia.
Qed.

Lemma initDB_from_exits connects now stored retries k :
  (forall i, i <= retries -> connects (k + i) = false) ->
  initDB_from connects now stored k retries =
    {| outcome := Exited 1; attempts := S (k + retries); waited := 5000 * (k + retries) |}.
Proof.
  revert k. induction retries as [|r IH]; intros k Hfail; cbn [initDB_from].
  - rewrite <- (Nat.add_0_r k) at 1. rewrite (Hfail 0) by lia. by rewrite Nat.add_0_r.
  - rewrite <- (Nat.add_0_r k) at 1. rewrite (Hfail 0) by lia.
    rewrite IH.
    + by replace (S k + r) with (k + S r) by lia.
    + intros i Hi. replace (S k + i) with (k + S i) by lia. apply Hfail. lia.
Qed.

(** X1: [initDB] connects at the first attempt that goes through, after
    waiting five seconds for each attempt that failed before it, and
    gives up with exit code 1 exactly when the first six attempts fail,
    after six attempts and five waits. *)
Theorem initDB_retries (connects : nat -> bool) (now : string) (stored : option database) :
  (forall j, j <= 5 -> connects j = true -> (forall i, i < j -> connects i = false) ->
     initDB connects now stored =
       {| outcome := Connected (ensure_tables now stored);
          attempts := S j; waited := 5000 * j |})
  /\ ((forall i, i <= 5 -> connects i = false) ->
      initDB connects now stored = {| outcome := Exited 1; attempts := 6; waited := 25000 |})
  /\ (outcome (initDB connects now stored) = Exited 1 ->
      forall i, i <= 5 -> connects i = false).
Proof.
  split; [|split].
  - intros j Hj Hok Hfail. unfold initDB.
    by rewrite (initDB_from_connects connects now stored 5 0 j).
  - intros Hfail. unfold initDB.
    by rewrite (initDB_from_exits connects now stored 5 0).
  - unfold initDB. cbn [initDB_from]. intros Hexit i Hi.
    destruct (connects 0) eqn:H0; [done|]. destruct (connects 1) eqn:H1; [done|].
    destruct (connects 2) eqn:H2; [done|]. destruct (connects 3) eqn:H3; [done|].
    destruct (connects 4) eqn:H4; [done|]. destruct (connects 5) eqn:H5; [done|].
    do 6 (destruct i as [|i]; [done|]). lia.
Qed.

Lemma initDB_retries_witness :
  initDB (fun k => Nat.leb 2 k) "2024-01-01 00:00:00" None =
    {| outcome := Connected (createTables "2024-01-01 00:00:00");
       attempts := 3; waited := 10000 |}
  /\ initDB (fun _ => false) "2024-01-01 00:00:00" None =
       {| outcome := Exited 1; attempts := 6; waited := 25000 |}.
Proof.
  split.
  - destruct (initDB_retries (fun k => Nat.leb 2 k) "2024-01-01 00:00:00" None) as (H & _ & _).
    apply (H 2); [lia|done|]. intros i Hi. by do 2 (destruct i as [|i]; [done|]); lia.
  - destruct (initDB_retries (fun _ => false) "2024-01-01 00:00:00" None) as (_ & H & _).
    by apply H.
Defined.

(** ** Work items: list, create, update *)

Lemma insert_by_deadline_perm w l : Permutation (insert_by_deadline w l) (w :: l).
Proof.
  induction l as [|x l IH]; simpl; [done|].
  destruct (String.leb _ _); [done|].
  rewrite IH. apply perm_swap.
Qed.

Lemma order_by_deadline_perm l : Permutation (order_by_deadline l) l.
Proof.
  induction l as [|x l IH]; simpl; [done|].
  fold (order_by_deadline l). by rewrite insert_by_deadline_perm, IH.
Qed.

Lemma deadline_le_trans a b c : deadline_le a b -> deadline_le b c -> deadline_le a c.
Proof. unfold deadline_le. apply (transitivity (R := String.le)). Qed.

Lemma deadline_le_total a b : deadline_le a b \/ deadline_le b a.
Proof. unfold deadline_le. apply (total String.le). Qed.

Lemma insert_by_deadline_ascending w l :
  ascending l -> ascending (insert_by_deadline w l).
Proof.
  induction l as [|x l IH]; simpl; [done|]. intros [Hx Hl].
  destruct (String.leb (Work.deadline w) (Work.deadline x)) eqn:Hle; simpl.
  - assert (deadline_le w x) as Hwx by (unfold deadline_le, String.le; by rewrite Hle).
    split; [|done]. constructor; [done|].
    eapply Forall_impl; [exact Hx|]. intros y Hy. by apply (deadline_le_trans w x y).
  - split; [|by apply IH].
    assert (deadline_le x w) as Hxw.
    { destruct (deadline_le_total w x) as [H|H]; [|done].
      unfold deadline_le, String.le in H. rewrite Hle in H. done. }
    rewrite (insert_by_deadline_perm w l). by constructor.
Qed.

Lemma order_by_deadline_ascending l : ascending (order_by_deadline l).
Proof.
  induction l as [|x l IH]; simpl; [done|]. by apply insert_by_deadline_ascending.
Qed.


Lemma work_ok_insert t w :
  work_ok t -> Work.id w = Work.next_id t ->
  work_ok {| Work.items := Work.items t ++ [w]; Work.next_id := Work.next_id t + 1 |}.
Proof.
  intros [Hnd Hlt] Hid. split; cbn [Work.items Work.next_id].
  - rewrite map_app. apply NoDup_app. split; [done|]. split; [|apply NoDup_singleton].
    intros i Hi ->%list_elem_of_singleton.
    apply list_elem_of_In, in_map_iff in Hi as (w' & Hw' & Hin).
    rewrite Forall_forall in Hlt. apply list_elem_of_In, Hlt in Hin. lia.
  - apply Forall_app. split.
    + eapply Forall_impl; [exact Hlt|]. intros w' Hw'. simpl in Hw'. lia.
    + constructor; [lia|constructor].
Qed.

Lemma work_ok_update t (f : Work.item -> Work.item) :
  (forall w, Work.id (f w) = Work.id w) ->
  work_ok t ->
  work_ok {| Work.items := map f (Work.items t); Work.next_id := Work.next_id t |}.
Proof.
  intros Hf [Hnd Hlt]. split; cbn [Work.items Work.next_id].
  - rewrite map_map. by rewrite (map_ext _ Work.id).
  - rewrite Forall_forall in *. intros w' (w & <- & Hin)%list_elem_of_In%in_map_iff.
    rewrite Hf. by apply Hlt, list_elem_of_In.
Qed.



(** X4: no create and no update gives an id to two items or lets an item
    carry an id that a later create can hand out: the ids stay distinct
    and below the next id, whatever the request. *)
Theorem work_ids_kept (db : database) :
  work_ok (work_status db) ->
  (forall req, work_ok (work_status (post_work_status db req).1))
  /\ (forall id status completedDate,
        work_ok (work_status (put_work_status db id status completedDate).1)).
Proof.
  intros Hok. split.
  - intros req. unfold post_work_status, Work.insert.
    destruct (sql_of_js (req_task req)); [|done].
    destruct (sql_of_js (req_deadline req)); [|done].
    destruct (sql_of_js (req_status req)) as [v|]; [destruct (Work.enum v); [|done]|];
      by apply work_ok_insert.
  - intros id st cd. unfold put_work_status, Work.update.
    destruct (existsb _ _); [|by rewrite with_work_status_same].
    destruct (sql_of_js st) as [v|]; [destruct (Work.enum v); [|done]|];
      cbn [fst work_status with_work_status]; apply work_ok_update; try done;
      intros w; by destruct (Z.eqb _ _).
Qed.

Lemma work_ids_kept_witness :
  work_ok (work_status
             (post_work_status Sample.db0
                {| req_task := JStr "Grade papers"; req_status := JUndefined;
                   req_startDate := JUndefined; req_deadline := JStr "2024-01-05" |}).1).
Proof.
  destruct (work_ids_kept Sample.db0) as [H _]; [|apply H].
  split; constructor.
Defined.





(** ** Dynamic columns: what deleting and adding do *)

Lemma not_base name : ~ In name baseColumns -> existsb (String.eqb name) baseColumns = false.
Proof.
  intros Hno. apply not_true_is_false. intros (c & Hc & ->%String.eqb_eq)%existsb_exists. done.
Qed.

Lemma delete_by_name_none reg name e :
  In e (Registry.delete_by_name reg name) -> Text.ci_eqb (Registry.column_name e) name = false.
Proof. unfold Registry.delete_by_name. intros [_ H]%filter_In. by apply negb_true_iff. Qed.

Lemma delete_by_name_same reg name :
  Registry.select_by_name reg name = [] -> Registry.delete_by_name reg name = reg.
Proof.
  intros Hsel. unfold Registry.delete_by_name. apply filter_all.
  intros e He. by rewrite (not_selected reg name e Hsel He).
Qed.

(** A name that is no fixed name, exactly, and names a column of a table
    with more than one column is deleted. *)
Lemma delete_column_ok db name :
  ~ In name baseColumns ->
  Sql.has_column (students db) name = true ->
  1 < length (Sql.columns (students db)) ->
  exists db',
    delete_column db name = (db', Json "Column deleted successfully")
    /\ Sql.has_column (students db') name = false
    /\ (forall e, In e (table_columns db') ->
                  Text.ci_eqb (Registry.column_name e) name = false)
    /\ Sql.rows (students db') = map (delete (Sql.key_of name)) (Sql.rows (students db))
    /\ Sql.columns (students db') =
         List.filter (fun col => negb (Sql.names name col)) (Sql.columns (students db)).
Proof.
  intros Hbase Hcol Hlen. unfold delete_column. rewrite (not_base name Hbase).
  unfold Sql.drop_column. cbn [students with_table_columns]. rewrite Hcol. cbn [negb].
  replace (Nat.leb (length (Sql.columns (students db))) 1) with false
    by (symmetry; apply Nat.leb_gt; lia).
  eexists. split; [done|]. cbn [students with_students table_columns with_table_columns
                                 Sql.columns Sql.rows].
  split; [|split; [|done]].
  - unfold Sql.has_column. cbn [Sql.columns]. apply not_true_is_false.
    intros (col & [_ Hn]%filter_In & Hy)%existsb_exists. by rewrite Hy in Hn.
  - intros e He. by apply (delete_by_name_none (table_columns db)).
Qed.

(** X7: deleting a column that exists and is not, letter for letter, one
    of the four fixed names succeeds: the name is no longer registered
    and no longer a column, every other column stays, every record loses
    its value under the name and keeps all its other values, and a search
    that filters on the name now fails with the engine's error. *)
Theorem delete_column_retracts (db : database) (name : string) :
  ~ In name baseColumns ->
  Sql.has_column (students db) name = true ->
  1 < length (Sql.columns (students db)) ->
  exists db',
    delete_column db name = (db', Json "Column deleted successfully")
    /\ Sql.has_column (students db') name = false
    /\ (forall e, In e (table_columns db') ->
                  Text.ci_eqb (Registry.column_name e) name = false)
    /\ (forall col, In col (Sql.columns (students db')) <->
                    In col (Sql.columns (students db)) /\ Sql.names name col = false)
    /\ Forall2 (fun r r' => r' !! Sql.key_of name = None /\
                            forall k, k <> Sql.key_of name -> r' !! k = r !! k)
               (Sql.rows (students db)) (Sql.rows (students db'))
    /\ (forall v, v <> "" ->
          get_students db' [(name, v)] = Status 500 (Database Sql.ER_BAD_FIELD_ERROR)).
Proof.
  intros Hbase Hcol Hlen.
  destruct (delete_column_ok db name Hbase Hcol Hlen) as (db' & Hdel & Hgone & Hreg & Hrows & Hcols).
  exists db'. split; [done|]. split; [done|]. split; [done|]. split; [|split].
  - intros col. rewrite Hcols, filter_In, negb_true_iff. done.
  - rewrite Hrows. clear.
    induction (Sql.rows (students db)) as [|r rs IH]; simpl; constructor; [|done].
    split; [apply lookup_delete_eq|]. intros k Hk. by apply lookup_delete_ne.
  - intros v Hv. unfold get_students, Sql.select_like, conditions.
    cbn [List.filter snd fst]. rewrite (proj2 (truthy_spec v) Hv).
    cbn [map existsb fst snd]. by rewrite Hgone.
Qed.

Lemma delete_column_retracts_witness :
  exists db',
    delete_column Sample.db2 "House" = (db', Json "Column deleted successfully")
    /\ Sql.has_column (students db') "House" = false.
Proof.
  destruct (delete_column_retracts Sample.db2 "House") as (db' & H1 & H2 & _).
  - vm_compute. intros [H|[H|[H|[H|[]]]]]; discriminate.
  - by vm_compute.
  - vm_compute. lia.
  - by exists db'.
Defined.

(** X8: the guard of the delete route compares letter for letter, the
    engine does not: a name that differs from a fixed column only in the
    case of its letters passes the guard, and the fixed column is dropped
    from the table and from every record. *)
Theorem delete_fixed_column_by_case (db : database) (name base : string) :
  In base baseColumns ->
  Text.fold_case name = Text.fold_case base ->
  name <> base ->
  Sql.has_column (students db) base = true ->
  1 < length (Sql.columns (students db)) ->
  exists db',
    delete_column db name = (db', Json "Column deleted successfully")
    /\ Sql.has_column (students db') base = false
    /\ Forall (fun r' => r' !! base = None) (Sql.rows (students db')).
Proof.
  intros Hbase Hfold Hne Hcol Hlen.
  assert (Text.fold_case base = base) as Hlow by (each_in Hbase; by vm_compute).
  assert (~ In name baseColumns) as Hno.
  { intros Hin. apply Hne. rewrite <- Hlow, <- Hfold. symmetry.
    each_in Hin; by vm_compute. }
  assert (forall col, Sql.names name col = Sql.names base col) as Hnames.
  { intros col. unfold Sql.names, Text.ci_eqb. by rewrite Hfold. }
  assert (Sql.has_column (students db) name = true) as Hcol'.
  { unfold Sql.has_column in *. by rewrite (existsb_ext' _ _ _ Hnames). }
  destruct (delete_column_ok db name Hno Hcol' Hlen) as (db' & Hdel & Hgone & _ & Hrows & _).
  exists db'. split; [done|]. split.
  - unfold Sql.has_column in *. by rewrite <- (existsb_ext' _ _ _ Hnames).
  - rewrite Hrows. apply Forall_forall. intros r' (r & <- & _)%list_elem_of_In%in_map_iff.
    unfold Sql.key_of. rewrite Hfold, Hlow. apply lookup_delete_eq.
Qed.

Lemma delete_fixed_column_by_case_witness :
  exists db',
    delete_column Sample.db1 "Name" = (db', Json "Column deleted successfully")
    /\ Sql.has_column (students db') "name" = false.
Proof.
  destruct (delete_fixed_column_by_case Sample.db1 "Name" "name") as (db' & H1 & H2 & _).
  - right. by left.
  - by vm_compute.
  - done.
  - by vm_compute.
  - vm_compute. lia.
  - by exists db'.
Defined.

(** X9: deleting a name that is no column of the students table is
    answered with status 500 and the engine's error and leaves the table
    as it is; an entry of the registry under the name is removed all the
    same, and without such an entry nothing changes. *)
Theorem delete_column_unknown (db : database) (name : string) :
  ~ In name baseColumns ->
  Sql.has_column (students db) name = false ->
  exists db',
    delete_column db name = (db', Status 500 (Database Sql.ER_CANT_DROP_FIELD_OR_KEY))
    /\ students db' = students db
    /\ table_columns db' = Registry.delete_by_name (table_columns db) name
    /\ (Registry.select_by_name (table_columns db) name = [] -> db' = db).
Proof.
  intros Hbase Hcol. unfold delete_column. rewrite (not_base name Hbase).
  unfold Sql.drop_column. cbn [students with_table_columns]. rewrite Hcol. cbn [negb].
  eexists. split; [done|]. split; [done|]. split; [done|].
  intros Hsel. rewrite (delete_by_name_same _ _ Hsel). by destruct db.
Qed.

Lemma delete_column_unknown_witness :
  delete_column Sample.db1 "house" =
    (Sample.db1, Status 500 (Database Sql.ER_CANT_DROP_FIELD_OR_KEY)).
Proof.
  destruct (delete_column_unknown Sample.db1 "house") as (db' & H1 & _ & _ & H2).
  - vm_compute. intros [H|[H|[H|[H|[]]]]]; discriminate.
  - by vm_compute.
  - by rewrite H1, H2.
Defined.

Lemma filter_drop_last (cols : list Sql.column) name :
  existsb (Sql.names name) cols = false ->
  List.filter (fun col => negb (Sql.names name col)) (cols ++ [Sql.varchar name]) = cols.
Proof.
  intros Hno. rewrite List.filter_app. cbn [List.filter].
  replace (Sql.names name (Sql.varchar name)) with true
    by (symmetry; apply TextFacts.ci_eqb_refl).
  cbn [negb]. rewrite app_nil_r. apply filter_all. intros col Hcol.
  apply negb_true_iff, not_true_is_false. intros Hn.
  assert (existsb (Sql.names name) cols = true); [|congruence].
  apply existsb_exists. by exists col.
Qed.

Lemma delete_fresh_entry reg name :
  Registry.select_by_name reg name = [] ->
  Registry.delete_by_name (reg ++ [Registry.fresh name]) name = reg.
Proof.
  intros Hsel. unfold Registry.delete_by_name. rewrite List.filter_app. cbn [List.filter].
  replace (Text.ci_eqb (Registry.column_name (Registry.fresh name)) name) with true
    by (symmetry; apply TextFacts.ci_eqb_refl).
  cbn [negb]. rewrite app_nil_r. by apply delete_by_name_same.
Qed.

Lemma delete_absent_key (rows : list (gmap string string)) k :
  Forall (fun r => r !! k = None) rows -> map (delete k) rows = rows.
Proof.
  induction 1 as [|r rs Hr _ IH]; simpl; [done|]. by rewrite (delete_id r k Hr), IH.
Qed.

(** Deleting a column right after it was added gives the database back. *)
Lemma delete_after_add db name :
  ~ In name baseColumns ->
  Registry.select_by_name (table_columns db) name = [] ->
  Sql.has_column (students db) name = false ->
  Sql.columns (students db) <> [] ->
  Forall (fun r => r !! Sql.key_of name = None) (Sql.rows (students db)) ->
  delete_column
    (with_students (with_table_columns db (table_columns db ++ [Registry.fresh name]))
       (Sql.with_columns (students db) (Sql.columns (students db) ++ [Sql.varchar name])))
    name = (db, Json "Column deleted successfully").
Proof.
  intros Hbase Hreg Hcol Hne Hrows. unfold delete_column. rewrite (not_base name Hbase).
  unfold Sql.drop_column.
  cbn [students with_students table_columns with_table_columns Sql.with_columns
       Sql.columns Sql.rows Sql.next_id Sql.clock].
  unfold Sql.has_column. cbn [Sql.with_columns Sql.columns]. rewrite existsb_app. cbn [existsb].
  replace (Sql.names name (Sql.varchar name)) with true
    by (symmetry; apply TextFacts.ci_eqb_refl).
  rewrite orb_true_r. cbn [negb orb].
  replace (Nat.leb (length (Sql.columns (students db) ++ [Sql.varchar name])) 1) with false.
  2: { symmetry. apply Nat.leb_gt. rewrite length_app. cbn [length].
       destruct (Sql.columns (students db)); [done|]. cbn [length]. lia. }
  rewrite (filter_drop_last _ _ Hcol), (delete_fresh_entry _ _ Hreg),
    (delete_absent_key _ _ Hrows).
  by destruct db as [[] ? ?].
Qed.

(** X10: a column that was added and is deleted right away leaves no
    trace, in either variant: for a name that can be added (in
    src/server.js: that matches no column as a LIKE pattern) and under
    which no record holds a value, adding and then deleting gives back
    the database as it was. *)
Theorem add_then_delete_column (db : database) (name : string) :
  ~ In name baseColumns ->
  Sql.ident_ok name = true ->
  Registry.select_by_name (table_columns db) name = [] ->
  Sql.has_column (students db) name = false ->
  Sql.columns (students db) <> [] ->
  Forall (fun r => r !! Sql.key_of name = None) (Sql.rows (students db)) ->
  delete_column (Part000.post_columns db name).1 name =
    (db, Json "Column deleted successfully")
  /\ (Sql.show_columns_like (students db) name = [] ->
      delete_column (ServerJs.post_columns db name).1 name =
        (db, Json "Column deleted successfully")).
Proof.
  intros Hbase Hid Hreg Hcol Hne Hrows. split.
  - unfold Part000.post_columns. rewrite Hreg. unfold Registry.insert. rewrite Hreg.
    unfold Sql.add_column. cbn [students with_table_columns]. rewrite Hid, Hcol.
    cbn [negb fst]. by apply delete_after_add.
  - intros Hlike. unfold ServerJs.post_columns. rewrite Hreg, Hlike.
    unfold Registry.insert. rewrite Hreg.
    unfold Sql.add_column. cbn [students with_table_columns]. rewrite Hid, Hcol.
    cbn [negb fst]. by apply delete_after_add.
Qed.

Lemma add_then_delete_column_witness :
  delete_column (Part000.post_columns Sample.db1 "house").1 "house" =
    (Sample.db1, Json "Column deleted successfully")
  /\ delete_column (ServerJs.post_columns Sample.db1 "house").1 "house" =
       (Sample.db1, Json "Column deleted successfully").
Proof.
  destruct (add_then_delete_column Sample.db1 "house") as [HP HS].
  - vm_compute. intros [H|[H|[H|[H|[]]]]]; discriminate.
  - by vm_compute.
  - by vm_compute.
  - by vm_compute.
  - by vm_compute.
  - rewrite sample_db1_rows. constructor; [by vm_compute|constructor].
  - split; [done|]. apply HS. by vm_compute.
Defined.



Lemma some_suffix_here f u : f u = true -> Text.some_suffix f u = true.
Proof. intros H. destruct u; simpl; by rewrite H. Qed.

(** A pattern without backslash matches every text that equals it up to
    case: [%] and [_] match themselves too. *)
Lemma like_self p : no_backslash p = true ->
  forall t, Text.fold_case p = Text.fold_case t -> Text.like p t = true.
Proof.
  induction p as [|c p IH]; intros Hp t Hfold.
  - by destruct t.
  - destruct t as [|d t]; [done|]. simpl in Hfold. injection Hfold as Hc Hfold.
    simpl in Hp. apply andb_true_iff in Hp as [Hb Hp]. apply negb_true_iff in Hb.
    specialize (IH Hp t Hfold). simpl. rewrite Hb.
    destruct (Text.is_percent c).
    + simpl. rewrite (some_suffix_here _ _ IH). apply orb_true_r.
    + destruct (Text.is_underscore c); [done|].
      rewrite IH, andb_true_r. by apply TextFacts.ceqb_spec.
Qed.

(** X12: src/server.js never registers a name that is registered or, if
    it has no backslash, names a column of the students table, in any
    letter case: the request is refused with status 400 and nothing
    changes. *)
Theorem serverjs_post_columns_guard (db : database) (name : string) :
  Registry.select_by_name (table_columns db) name <> [] \/
  (Sql.has_column (students db) name = true /\ no_backslash name = true) ->
  exists m, ServerJs.post_columns db name = (db, Status 400 (Message m)).
Proof.
  intros Hor. unfold ServerJs.post_columns.
  destruct (Registry.select_by_name (table_columns db) name) as [|e es] eqn:Hsel;
    [|by eexists].
  destruct Hor as [Hreg|[Hcol Hbs]]; [done|].
  destruct (Sql.show_columns_like (students db) name) as [|c cs] eqn:Hlike; [|by eexists].
  apply existsb_exists in Hcol as (col & Hin & Hname).
  assert (In col (Sql.show_columns_like (students db) name)) as Hcol.
  { apply filter_In. split; [done|]. apply like_self; [done|].
    unfold Sql.names in Hname. by apply TextFacts.ci_eqb_spec in Hname. }
  rewrite Hlike in Hcol. destruct Hcol.
Qed.

Lemma serverjs_post_columns_guard_witness :
  exists m, ServerJs.post_columns Sample.db1 "Created_At" = (Sample.db1, Status 400 (Message m)).
Proof.
  apply serverjs_post_columns_guard. right. split; by vm_compute.
Defined.

(** X13: the second variant has no such guard: for an acceptable name
    that is not registered but names a column of the students table,
    such as [id], the registry entry is written, the ALTER TABLE fails on
    the duplicate column, the reply has status 500, and the name is now
    listed although no column was added. *)
Theorem part000_post_columns_live (db : database) (name : string) :
  Sql.ident_ok name = true ->
  Registry.select_by_name (table_columns db) name = [] ->
  Sql.has_column (students db) name = true ->
  exists db',
    Part000.post_columns db name = (db', Status 500 (Database Sql.ER_DUP_FIELDNAME))
    /\ students db' = students db
    /\ get_columns db' = get_columns db ++ [name].
Proof.
  intros Hid Hreg Hcol. unfold Part000.post_columns. rewrite Hreg.
  unfold Registry.insert. rewrite Hreg. unfold Sql.add_column.
  cbn [students with_table_columns]. rewrite Hid, Hcol. cbn [negb].
  eexists. split; [done|]. split; [done|].
  unfold get_columns. cbn [table_columns with_table_columns]. by rewrite map_app, app_assoc.
Qed.

Lemma part000_post_columns_live_witness :
  exists db',
    Part000.post_columns Sample.db0 "name" = (db', Status 500 (Database Sql.ER_DUP_FIELDNAME))
    /\ get_columns db' = ["student_id"; "name"; "class"; "section"; "name"].
Proof.
  destruct (part000_post_columns_live Sample.db0 "name") as (db' & H1 & _ & H2);
    [by vm_compute..|].
  exists db'. split; [done|]. by rewrite H2.
Defined.

(** ** Student search: order, narrowing and letter case *)

Lemma existsb_perm {A} (f : A -> bool) l l' :
  Permutation l l' -> existsb f l = existsb f l'.
Proof.
  induction 1 as [|x l l' _ IH|x y l|l l' l'' _ IH1 _ IH2]; simpl;
    [done|by rewrite IH|by destruct (f x), (f y)|congruence].
Qed.

Lemma forallb_perm {A} (f : A -> bool) l l' :
  Permutation l l' -> forallb f l = forallb f l'.
Proof.
  induction 1 as [|x l l' _ IH|x y l|l l' l'' _ IH1 _ IH2]; simpl;
    [done|by rewrite IH|by destruct (f x), (f y)|congruence].
Qed.

Lemma conditions_perm f g : Permutation f g -> Permutation (conditions f) (conditions g).
Proof.
  unfold conditions.
  induction 1 as [|x l l' _ IH|x y l|l l' l'' _ IH1 _ IH2]; simpl.
  - done.
  - destruct (truthy x.2); simpl; by rewrite IH.
  - destruct (truthy x.2), (truthy y.2); simpl; try done. apply perm_swap.
  - by etrans.
Qed.

Lemma conditions_app f g : conditions (f ++ g) = conditions f ++ conditions g.
Proof. unfold conditions. by rewrite List.filter_app, map_app. Qed.



Lemma filter_sublist {A} (f : A -> bool) l : sublist (List.filter f l) l.
Proof.
  induction l as [|x l IH]; simpl; [done|].
  destruct (f x); [by apply sublist_skip|by apply sublist_cons].
Qed.

Lemma filter_narrow {A} (f g : A -> bool) l :
  List.filter (fun x => f x && g x) l = List.filter g (List.filter f l).
Proof.
  induction l as [|x l IH]; simpl; [done|].
  destruct (f x); simpl; [destruct (g x)|]; by rewrite IH.
Qed.

(** X15: further filters only narrow the search: whenever a search
    succeeds, the search with a part of its filters succeeds too, the
    records found are among those the smaller search finds, in the same
    order, these are records of the table in table order, and [count] is
    the number of records sent. *)
Theorem students_filters_narrow (db : database) (f g : list (string * string)) (r : found) :
  get_students db (f ++ g) = Json r ->
  exists r1, get_students db f = Json r1
    /\ sublist (data r) (data r1)
    /\ sublist (data r1) (Sql.rows (students db))
    /\ count r = length (data r).
Proof.
  unfold get_students, Sql.select_like. rewrite conditions_app, existsb_app.
  destruct (existsb _ (conditions f)); [done|]. cbn [orb].
  destruct (existsb _ (conditions g)); [done|].
  intros [= <-]. eexists. split; [done|]. cbn [data count].
  split; [|split; [apply filter_sublist|done]].
  rewrite (filter_ext_in' _ (fun r => forallb (Sql.holds r) (conditions f)
                                      && forallb (Sql.holds r) (conditions g))).
  - rewrite filter_narrow. apply filter_sublist.
  - intros x _. apply forallb_app.
Qed.

Lemma students_filters_narrow_witness :
  exists r r1,
    get_students Sample.db1 [("name", "ali"); ("class", "9")] = Json r
    /\ get_students Sample.db1 [("name", "ali")] = Json r1
    /\ sublist (data r) (data r1).
Proof.
  destruct (students_filters_narrow Sample.db1 [("name", "ali")] [("class", "9")] _ eq_refl)
    as (r1 & H1 & H2 & _).
  eexists _, r1. split; [reflexivity|]. split; [exact H1|exact H2].
Defined.

Lemma lower_lower c : Text.lower (Text.lower c) = Text.lower c.
Proof. by destruct c as [[] [] [] [] [] [] [] []]. Qed.

Lemma lower_special c :
  Text.is_percent (Text.lower c) = Text.is_percent c
  /\ Text.is_underscore (Text.lower c) = Text.is_underscore c
  /\ Text.is_backslash (Text.lower c) = Text.is_backslash c.
Proof. by destruct c as [[] [] [] [] [] [] [] []]. Qed.

Lemma ceqb_lower c d : Text.ceqb (Text.lower c) d = Text.ceqb c d.
Proof. unfold Text.ceqb. by rewrite lower_lower. Qed.

Lemma fold_case_fold s : Text.fold_case (Text.fold_case s) = Text.fold_case s.
Proof. induction s as [|c s IH]; simpl; [done|]. by rewrite lower_lower, IH. Qed.

Lemma fold_case_app s t :
  Text.fold_case (s +:+ t) = Text.fold_case s +:+ Text.fold_case t.
Proof. induction s as [|c s IH]; simpl; [done|]. by rewrite IH. Qed.

(** A pattern matches what its lower-case form matches. *)
Lemma like_fold_bounded n : forall p, String.length p <= n ->
  forall t, Text.like (Text.fold_case p) t = Text.like p t.
Proof.
  induction n as [|n IH]; intros [|c p] Hn t; simpl in Hn; try done; try lia.
  assert (forall t, Text.like (Text.fold_case p) t = Text.like p t) as IHp
    by (apply IH; lia).
  simpl. destruct (lower_special c) as (-> & -> & ->).
  destruct (Text.is_percent c); [by apply TextFacts.some_suffix_ext|].
  destruct (Text.is_underscore c); [by destruct t|].
  destruct (Text.is_backslash c).
  - destruct p as [|e p]; simpl.
    + destruct t as [|d [|]]; try done. apply ceqb_lower.
    + destruct t as [|d t]; [done|]. rewrite ceqb_lower. f_equal.
      apply IH. simpl in Hn. lia.
  - destruct t as [|d t]; [done|]. by rewrite ceqb_lower, IHp.
Qed.

Lemma like_fold p t : Text.like (Text.fold_case p) t = Text.like p t.
Proof. by apply (like_fold_bounded (String.length p)). Qed.

Lemma has_column_fold t k : Sql.has_column t (Text.fold_case k) = Sql.has_column t k.
Proof.
  unfold Sql.has_column. apply existsb_ext'. intros col.
  unfold Sql.names, Text.ci_eqb. by rewrite fold_case_fold.
Qed.

Lemma holds_fold r k v :
  Sql.holds r (Text.fold_case k, Text.wrap (Text.fold_case v)) = Sql.holds r (k, Text.wrap v).
Proof.
  unfold Sql.holds, Sql.key_of. cbn [fst snd]. rewrite fold_case_fold.
  destruct (r !! Text.fold_case k); [|done].
  rewrite <- (like_fold (Text.wrap v)). unfold Text.wrap.
  by rewrite !fold_case_app.
Qed.

Lemma truthy_fold v : truthy (Text.fold_case v) = truthy v.
Proof. by destruct v. Qed.


(** ** Import: what a whole upload keeps (src/server.js) *)

Lemma add_new_column_rows db h :
  Sql.rows (students (ServerJs.add_new_column db h)) = Sql.rows (students db).
Proof.
  unfold ServerJs.add_new_column. cbn [students with_table_columns].
  destruct (Sql.show_columns_like _ _); [|done].
  unfold Sql.add_column. by repeat (case_match; simplify_eq).
Qed.

Lemma add_new_columns_rows new db :
  Sql.rows (students (foldl ServerJs.add_new_column db new)) = Sql.rows (students db).
Proof.
  revert db. induction new as [|h new IH]; intros db; simpl; [done|].
  by rewrite IH, add_new_column_rows.
Qed.

Lemma kept_by_nil r : kept_by [] r r.
Proof. intros k. by left. Qed.

Lemma kept_by_cons row sheet r r1 r2 :
  kept row r r1 -> kept_by sheet r1 r2 -> kept_by (row :: sheet) r r2.
Proof.
  intros H1 H2 k. destruct (H2 k) as [Hsame|(Hk & row' & c & v & Hrow & Hin & Hv & Hc & Hl)].
  - rewrite Hsame. destruct (H1 k) as [|(Hk & c & v & Hin & Hv & Hc & Hl)]; [by left|].
    right. split; [done|]. exists row, c, v. by split; [left|].
  - right. split; [done|]. exists row', c, v. by split; [right|].
Qed.

Lemma kept_by_more row sheet r r' : kept_by sheet r r' -> kept_by (row :: sheet) r r'.
Proof. apply kept_by_cons, kept_refl. Qed.

Lemma upsert_rows_keep sheet : forall st,
  headers_apart sheet ->
  exists olds news,
    Sql.rows (students (ServerJs.db_of (foldl ServerJs.upsert_row st sheet))) = olds ++ news
    /\ Forall2 (kept_by sheet) (Sql.rows (students (ServerJs.db_of st))) olds.
Proof.
  induction sheet as [|row sheet IH]; intros st Hnd.
  - exists (Sql.rows (students (ServerJs.db_of st))), []. rewrite app_nil_r.
    split; [done|]. apply Forall2_same_length_lookup_2; [done|].
    intros i x y Hx Hy. simplify_eq. apply kept_by_nil.
  - inversion Hnd as [|? ? Hrow Hrest]; subst. cbn [foldl].
    destruct (serverjs_upsert_row_writes st row Hrow) as (olds1 & news1 & Hrows1 & Hkept1 & _).
    destruct (IH (ServerJs.upsert_row st row) Hrest) as (olds2 & news2 & Hrows2 & Hkept2).
    rewrite Hrows1 in Hkept2.
    apply Forall2_app_inv_l in Hkept2 as (olds2a & olds2b & Ha & Hb & ->).
    exists olds2a, (olds2b ++ news2). split; [by rewrite Hrows2, app_assoc|].
    clear -Hkept1 Ha. revert olds2a Ha.
    induction Hkept1 as [|r r1 rs rs1 Hr _ IHk]; intros olds2a Ha.
    + inversion Ha. constructor.
    + inversion Ha as [|? r2 ? rs2 Hr2 Hrs2]; subst. constructor; [|by apply IHk].
      by apply (kept_by_cons row sheet r r1 r2).
Qed.

(** X17: an import by src/server.js of a sheet whose headers differ
    also up to case removes no record and moves none: the records
    stored before are still there, in their order and before the new
    ones, each with every attribute as it was or with a non-blank value
    of the sheet in it; the student id of a stored record never
    changes, and no stored value is replaced by a blank. *)
Theorem serverjs_upload_keeps_records (db : database) (sheet : list jsobject) :
  headers_apart sheet ->
  exists olds news,
    Sql.rows (students (ServerJs.post_upload db (Some sheet)).1) = olds ++ news
    /\ Forall2 (kept_by sheet) (Sql.rows (students db)) olds.
Proof.
  intros Hnd. destruct sheet as [|first rest].
  - exists (Sql.rows (students db)), []. rewrite app_nil_r. split; [done|].
    apply Forall2_same_length_lookup_2; [done|].
    intros i x y Hx Hy. simplify_eq. apply kept_by_nil.
  - unfold ServerJs.post_upload. cbn [fst].
    match goal with
    | |- context [foldl ServerJs.upsert_row ?s _] =>
        destruct (upsert_rows_keep (first :: rest) s Hnd) as (olds & news & Hrows & Hkept)
    end.
    exists olds, news. split; [done|].
    cbn [ServerJs.db_of] in Hkept. by rewrite add_new_columns_rows in Hkept.
Qed.

Lemma serverjs_upload_keeps_records_witness :
  exists olds news,
    Sql.rows (students (ServerJs.post_upload Sample.db1 (Some Sample.sheet_house)).1)
      = olds ++ news
    /\ Forall2 (kept_by Sample.sheet_house) [Sample.alice] olds.
Proof.
  apply (serverjs_upload_keeps_records Sample.db1 Sample.sheet_house).
  unfold headers_apart. repeat constructor; compute_done.
Defined.



(** ** Import: a header that cannot name a column (second variant) *)

Lemma add_column_if_not_exists_rows t c t' :
  Sql.add_column_if_not_exists t c = Sql.Ok t' -> Sql.rows t' = Sql.rows t.
Proof.
  unfold Sql.add_column_if_not_exists. intros H. by repeat (case_match; simplify_eq).
Qed.

Lemma part000_add_new_columns_stop cols : forall db h,
  In h cols -> Sql.ident_ok h = false ->
  exists db',
    Part000.add_new_columns db cols = (db', Some Sql.ER_WRONG_COLUMN_NAME)
    /\ Sql.rows (students db') = Sql.rows (students db).
Proof.
  induction cols as [|c cols IH]; intros db h Hin Hid; [done|].
  cbn [Part000.add_new_columns students with_table_columns].
  destruct (Sql.add_column_if_not_exists (students db) c) as [t|e] eqn:Hadd.
  - destruct Hin as [->|Hin].
    { unfold Sql.add_column_if_not_exists in Hadd. by rewrite Hid in Hadd. }
    destruct (IH (with_students
                    (with_table_columns db (Registry.insert_ignore (table_columns db) c)) t)
                 h Hin Hid) as (db' & -> & Hrows).
    exists db'. split; [done|].
    rewrite Hrows. cbn [students with_students].
    by apply (add_column_if_not_exists_rows _ c).
  - assert (e = Sql.ER_WRONG_COLUMN_NAME) as ->.
    { unfold Sql.add_column_if_not_exists in Hadd. by repeat (case_match; simplify_eq). }
    by eexists.
Qed.

(** X19: in the second variant a new header that the engine does not
    take as a column name, such as one with a blank at its end, stops
    the import: the reply has status 500 with the error of the ALTER
    TABLE statement, and no row of the sheet is written. *)
Theorem part000_upload_bad_header (db : database) (first : jsobject) (rest : list jsobject)
    (h : string) :
  In h (part000_new db (first :: rest)) ->
  Sql.ident_ok h = false ->
  exists db',
    Part000.post_upload db (Some (first :: rest))
      = (db', Status 500 (Database Sql.ER_WRONG_COLUMN_NAME))
    /\ Sql.rows (students db') = Sql.rows (students db).
Proof.
  intros Hin Hid. unfold Part000.post_upload.
  destruct (part000_add_new_columns_stop _ db h Hin Hid) as (db' & Hstop & Hrows).
  unfold part000_new in Hstop. cbn [hd] in Hstop. rewrite Hstop. by exists db'.
Qed.

Lemma part000_upload_bad_header_witness :
  exists db',
    Part000.post_upload Sample.db0
      (Some [Sample.student "S1" "Alice" "10A" "B" ++ [("house ", JStr "Red")]])
      = (db', Status 500 (Database Sql.ER_WRONG_COLUMN_NAME))
    /\ Sql.rows (students db') = [].
Proof.
  apply (part000_upload_bad_header Sample.db0 _ [] "house ");
    [vm_compute; by left|by vm_compute].
Defined.

(** ** Import: the tally against the records *)

Lemma update_first_length p (f : gmap string string -> gmap string string) rs :
  length (Sql.update_first p f rs) = length rs.
Proof. induction rs as [|r rs IH]; simpl; [done|]. destruct (p r); simpl; by rewrite ?IH. Qed.

Lemma part000_add_new_columns_rows cols : forall db,
  Sql.rows (students (Part000.add_new_columns db cols).1) = Sql.rows (students db).
Proof.
  induction cols as [|c cols IH]; intros db; [done|].
  cbn [Part000.add_new_columns students with_table_columns].
  destruct (Sql.add_column_if_not_exists (students db) c) as [t|e] eqn:Hadd; [|done].
  rewrite IH. cbn [students with_students]. by apply (add_column_if_not_exists_rows _ c).
Qed.

Lemma part000_upsert_row_tally st row :
  let st' := Part000.upsert_row st row in
  st.2 <= st'.2 <= S st.2
  /\ length (Sql.rows (students st.1)) <= length (Sql.rows (students st'.1))
  /\ length (Sql.rows (students st'.1)) + st.2 <= length (Sql.rows (students st.1)) + st'.2.
Proof.
  unfold Part000.upsert_row, Sql.insert_or_update.
  repeat (case_match; simplify_eq);
    cbn [fst snd students with_students Sql.rows Sql.with_rows];
    rewrite ?update_first_length, ?length_app; simpl; lia.
Qed.

Lemma part000_upsert_rows_tally rows : forall st,
  let st' := foldl Part000.upsert_row st rows in
  st.2 <= st'.2 <= st.2 + length rows
  /\ length (Sql.rows (students st.1)) <= length (Sql.rows (students st'.1))
  /\ length (Sql.rows (students st'.1)) + st.2 <= length (Sql.rows (students st.1)) + st'.2.
Proof.
  induction rows as [|row rows IH]; intros st; cbn [foldl length]; [lia|].
  pose proof (part000_upsert_row_tally st row) as H1.
  pose proof (IH (Part000.upsert_row st row)) as H2.
  cbn zeta in *. lia.
Qed.

Lemma serverjs_upsert_row_tally st row :
  let st' := ServerJs.upsert_row st row in
  ServerJs.insertedCount st <= ServerJs.insertedCount st'
  /\ length (Sql.rows (students (ServerJs.db_of st)))
     <= length (Sql.rows (students (ServerJs.db_of st')))
  /\ length (Sql.rows (students (ServerJs.db_of st'))) + ServerJs.insertedCount st
     <= length (Sql.rows (students (ServerJs.db_of st))) + ServerJs.insertedCount st'.
Proof.
  unfold ServerJs.upsert_row, ServerJs.on_duplicate, Sql.insert, Sql.update_where.
  repeat (case_match; simplify_eq);
    cbn [ServerJs.db_of ServerJs.insertedCount students with_students Sql.rows Sql.with_rows];
    rewrite ?length_map, ?length_app; simpl; lia.
Qed.

Lemma serverjs_upsert_rows_tally rows : forall st,
  let st' := foldl ServerJs.upsert_row st rows in
  ServerJs.insertedCount st <= ServerJs.insertedCount st'
  /\ length (Sql.rows (students (ServerJs.db_of st)))
     <= length (Sql.rows (students (ServerJs.db_of st')))
  /\ length (Sql.rows (students (ServerJs.db_of st'))) + ServerJs.insertedCount st
     <= length (Sql.rows (students (ServerJs.db_of st))) + ServerJs.insertedCount st'.
Proof.
  induction rows as [|row rows IH]; intros st; cbn [foldl]; [lia|].
  pose proof (serverjs_upsert_row_tally st row) as H1.
  pose proof (IH (ServerJs.upsert_row st row)) as H2.
  cbn zeta in *. lia.
Qed.

(** X20: in both variants an upload never lowers the number of
    records, whatever it answers, and a successful upload counts no row
    twice and adds at most as many records as it reports processed (in
    src/server.js processed and failed rows together are at most the
    rows of the sheet). *)
Theorem upload_tally_bounds (db : database) (file : option (list jsobject)) :
  (length (Sql.rows (students db))
     <= length (Sql.rows (students (ServerJs.post_upload db file).1))
   /\ forall res, (ServerJs.post_upload db file).2 = Json res ->
        exists sheet failed,
          file = Some sheet /\ recordsFailed res = Some failed
          /\ recordsProcessed res + failed <= length sheet
          /\ length (Sql.rows (students (ServerJs.post_upload db file).1))
             <= length (Sql.rows (students db)) + recordsProcessed res)
  /\ (length (Sql.rows (students db))
        <= length (Sql.rows (students (Part000.post_upload db file).1))
      /\ forall res, (Part000.post_upload db file).2 = Json res ->
           exists sheet,
             file = Some sheet /\ recordsFailed res = None
             /\ recordsProcessed res <= length sheet
             /\ length (Sql.rows (students (Part000.post_upload db file).1))
                <= length (Sql.rows (students db)) + recordsProcessed res).
Proof.
  split.
  - destruct file as [[|first rest]|];
      try (split; [apply Nat.le_refl|intros res H; cbn in H; discriminate]).
    unfold ServerJs.post_upload. cbn [fst snd].
    match goal with
    | |- context [foldl ServerJs.upsert_row ?s _] =>
        pose proof (serverjs_upsert_rows_tally (first :: rest) s) as (_ & Hlow & Hhigh);
        pose proof (upsert_rows_counts (first :: rest) s) as Hcount
    end.
    cbn [ServerJs.db_of ServerJs.insertedCount ServerJs.errorCount] in *.
    rewrite add_new_columns_rows in Hlow, Hhigh.
    split; [done|]. intros res [= <-]. eexists _, _. split; [done|]. split; [done|].
    cbn [recordsProcessed foldl] in *. split; lia.
  - destruct file as [[|first rest]|];
      try (split; [apply Nat.le_refl|intros res H; cbn in H; discriminate]).
    unfold Part000.post_upload.
    match goal with
    | |- context [Part000.add_new_columns db ?new] =>
        pose proof (part000_add_new_columns_rows new db) as Hnew;
        destruct (Part000.add_new_columns db new) as [db1 [e|]]
    end; cbn [fst snd] in *.
    + split; [rewrite Hnew; lia|done].
    + pose proof (part000_upsert_rows_tally (first :: rest) (db1, 0)) as (Hc & Hlow & Hhigh).
      cbn [fst snd] in *. rewrite Hnew in Hlow, Hhigh.
      split; [done|]. intros res [= <-]. eexists. split; [done|]. split; [done|].
      cbn [recordsProcessed foldl] in *. split; lia.
Qed.

Lemma upload_tally_bounds_witness :
  length (Sql.rows (students Sample.db1))
    <= length (Sql.rows (students (ServerJs.post_upload Sample.db1
                                     (Some Sample.sheet_house)).1))
  /\ length (Sql.rows (students Sample.db1))
    <= length (Sql.rows (students (Part000.post_upload Sample.db1
                                     (Some Sample.sheet_house)).1)).
Proof.
  destruct (upload_tally_bounds Sample.db1 (Some Sample.sheet_house)) as [[H1 _] [H2 _]].
  exact (conj H1 H2).
Defined.

(** ** Import: a header that names a column in another letter case *)

Lemma serverjs_upsert_row_schema st row :
  Sql.columns (students (ServerJs.db_of (ServerJs.upsert_row st row)))
    = Sql.columns (students (ServerJs.db_of st))
  /\ table_columns (ServerJs.db_of (ServerJs.upsert_row st row))
    = table_columns (ServerJs.db_of st).
Proof.
  unfold ServerJs.upsert_row, ServerJs.on_duplicate, Sql.insert, Sql.update_where.
  by repeat (case_match; simplify_eq).
Qed.

Lemma serverjs_upsert_rows_schema rows : forall st,
  Sql.columns (students (ServerJs.db_of (foldl ServerJs.upsert_row st rows)))
    = Sql.columns (students (ServerJs.db_of st))
  /\ table_columns (ServerJs.db_of (foldl ServerJs.upsert_row st rows))
    = table_columns (ServerJs.db_of st).
Proof.
  induction rows as [|row rows IH]; intros st; cbn [foldl]; [done|].
  destruct (IH (ServerJs.upsert_row st row)) as [-> ->]. apply serverjs_upsert_row_schema.
Qed.

Lemma part000_upsert_row_schema st row :
  Sql.columns (students (Part000.upsert_row st row).1) = Sql.columns (students st.1)
  /\ table_columns (Part000.upsert_row st row).1 = table_columns st.1.
Proof.
  unfold Part000.upsert_row, Sql.insert_or_update.
  by repeat (case_match; simplify_eq).
Qed.

Lemma part000_upsert_rows_schema rows : forall st,
  Sql.columns (students (foldl Part000.upsert_row st rows).1) = Sql.columns (students st.1)
  /\ table_columns (foldl Part000.upsert_row st rows).1 = table_columns st.1.
Proof.
  induction rows as [|row rows IH]; intros st; cbn [foldl]; [done|].
  destruct (IH (Part000.upsert_row st row)) as [-> ->]. apply part000_upsert_row_schema.
Qed.



(** ** The debug route (src/server.js) *)

(** X22: the debug route agrees with the other routes: [totalRecords]
    is the [count] of the search without filters, [sampleData] are the
    first five records of that search, or all when there are fewer, and
    [columns] are the names the import compares headers with: a sheet
    whose first row has only headers listed there is reported without a
    new column and leaves the columns and the registry as they are. *)
Theorem debug_structure_agrees (db : database) (first : jsobject) (rest : list jsobject) :
  let s := get_debug_structure db in
  (exists r, get_students db [] = Json r
     /\ totalRecords s = count r /\ sampleData s = take 5 (data r))
  /\ length (sampleData s) = Nat.min 5 (totalRecords s)
  /\ ((forall h, In h (Object_keys first) -> In h (debug_columns s)) ->
      let after := ServerJs.post_upload db (Some (first :: rest)) in
      (exists res, after.2 = Json res /\ newColumnsAdded res = [])
      /\ Sql.columns (students after.1) = Sql.columns (students db)
      /\ get_columns after.1 = get_columns db).
Proof.
  intros s. split; [|split].
  - eexists. unfold get_students, Sql.select_like. cbn [conditions List.filter map existsb].
    split; [done|]. cbn [data count forallb].
    rewrite filter_all by done. by split.
  - unfold s, get_debug_structure. cbn [sampleData totalRecords]. apply length_take.
  - intros Hall after. unfold after, ServerJs.post_upload.
    unfold s, get_debug_structure in Hall. cbn [debug_columns] in Hall.
    rewrite (not_included_nil _ _ Hall). cbn [foldl fst snd].
    match goal with
    | |- context [foldl ServerJs.upsert_row ?st rest] =>
        destruct (serverjs_upsert_rows_schema rest st) as [Hc Ht]
    end.
    destruct (serverjs_upsert_row_schema
                {| ServerJs.db_of := db; ServerJs.insertedCount := 0;
                   ServerJs.errorCount := 0 |} first) as [Hc1 Ht1].
    cbn [ServerJs.db_of] in *.
    split; [by eexists|]. unfold get_columns. by rewrite Hc, Hc1, Ht, Ht1.
Qed.

Lemma debug_structure_agrees_witness :
  get_columns (ServerJs.post_upload Sample.db2 (Some Sample.sheet_blank)).1
    = get_columns Sample.db2.
Proof.
  destruct (debug_structure_agrees Sample.db2
              (Sample.student "S1" "Alice B" "10A" "B" ++ [("house", JStr "")]) [])
    as (_ & _ & H).
  apply H. intros h Hin. vm_compute in Hin. vm_compute.
  each_in Hin; auto 10.
Defined.
